(** * Pagination of the in-memory mail collection

    A shallow embedding of [MailsService.getMailPaginated]
    (src/mails/mails.service.ts), of the request DTO that guards it
    (src/mails/dto/pagination-params.dto.ts) and of the controller route
    that chains both (src/mails/mails.controller.ts), together with the
    pieces of the JavaScript platform the method relies on:
    [parseInt], [isNaN], [Array.prototype.slice] and the numeric-string
    check behind class-validator's [IsNumberString]. *)

From Stdlib Require Import ZArith String Ascii Bool Lia.
From Stdlib Require DecimalString DecimalPos.
From stdpp Require Import base list strings.

Local Open Scope Z_scope.

(** ** JavaScript numbers, as far as the service uses them

    The service only ever holds integers produced by [parseInt] (or the
    literals 10 and 0) and the not-a-number value.  [Num z] stands for the
    double nearest to the integer [z]: rounding changes neither the sign of
    an integer nor its position relative to the length of an array, the
    only two things the service looks at. *)

Inductive number : Type :=
  | NaN
  | Num (z : Z).

Definition isNaN (n : number) : bool :=
  match n with
  | NaN => true
  | Num _ => false
  end.

(** [a + b]: not-a-number is absorbing. *)
Definition num_add (a b : number) : number :=
  match a, b with
  | Num x, Num y => Num (x + y)
  | _, _ => NaN
  end.

(** [a <= b] and [a < b]: every comparison with not-a-number is false. *)
Definition num_leb (a b : number) : bool :=
  match a, b with
  | Num x, Num y => x <=? y
  | _, _ => false
  end.

Definition num_ltb (a b : number) : bool :=
  match a, b with
  | Num x, Num y => x <? y
  | _, _ => false
  end.

(** ** [parseInt(string, 10)]

    Strings are sequences of code units below 256, so the white space that
    [parseInt] skips is TAB, LF, VT, FF, CR, SP and NBSP. *)

Definition isStrWhiteSpaceChar (c : ascii) : bool :=
  match N_of_ascii c with
  | 9%N | 10%N | 11%N | 12%N | 13%N | 32%N | 160%N => true
  | _ => false
  end.

Fixpoint trimStart (s : string) : string :=
  match s with
  | String c rest => if isStrWhiteSpaceChar c then trimStart rest else s
  | EmptyString => EmptyString
  end.

(** The value of a radix-10 digit, [None] for any other code unit. *)
Definition digitValue (c : ascii) : option Z :=
  let n := Z.of_N (N_of_ascii c) in
  if (48 <=? n) && (n <=? 57) then Some (n - 48) else None.

Definition isDigit (c : ascii) : bool :=
  match digitValue c with
  | Some _ => true
  | None => false
  end.

(** The longest prefix of digits, as digit values. *)
Fixpoint leadingDigits (s : string) : list Z :=
  match s with
  | String c rest =>
      match digitValue c with
      | Some d => d :: leadingDigits rest
      | None => []
      end
  | EmptyString => []
  end.

(** The mathematical integer a digit sequence denotes in radix 10. *)
Definition mathInt (ds : list Z) : Z :=
  fold_left (fun acc d => 10 * acc + d) ds 0.

(** An optional leading sign, as a factor, and what follows it. *)
Definition splitSign (s : string) : Z * string :=
  match s with
  | String "-"%char rest => (-1, rest)
  | String "+"%char rest => (1, rest)
  | _ => (1, s)
  end.

(** After the white space, an optional sign; then the digits.  With the
    radix given as 10 a leading "0x" is not a prefix: the parse stops after
    the 0. *)
Definition parseInt (inputString : string) : number :=
  let '(sign, body) := splitSign (trimStart inputString) in
  match leadingDigits body with
  | [] => NaN
  | ds => Num (sign * mathInt ds)
  end.

(** ** [Array.prototype.slice(start, end)] *)

Definition ToIntegerOrInfinity (n : number) : Z :=
  match n with
  | NaN => 0
  | Num z => z
  end.

Definition relativeIndex (len : Z) (n : number) : Z :=
  let relative := ToIntegerOrInfinity n in
  if relative <? 0 then Z.max (len + relative) 0 else Z.min relative len.

Definition slice {A : Type} (O : list A) (start end_ : number) : list A :=
  let len := Z.of_nat (length O) in
  let k := relativeIndex len start in
  let final := relativeIndex len end_ in
  let count := Z.max (final - k) 0 in
  take (Z.to_nat count) (drop (Z.to_nat k) O).

(** ** The numeric-string check of the request DTO

    [IsNumberString({}, ...)] holds of a string when validator.js's
    [isNumeric] does; with empty options that is a match of
    [^[+-]?([0-9]*[.])?[0-9]+$]. *)

Fixpoint allDigits (s : string) : bool :=
  match s with
  | String c rest => isDigit c && allDigits rest
  | EmptyString => true
  end.

Definition nonEmpty (s : string) : bool :=
  match s with
  | EmptyString => false
  | String _ _ => true
  end.

(** What is left of a string after its longest prefix of digits. *)
Fixpoint dropDigits (s : string) : string :=
  match s with
  | String c rest => if isDigit c then dropDigits rest else s
  | EmptyString => EmptyString
  end.

Definition isNumeric (str : string) : bool :=
  let unsigned := (splitSign str).2 in
  match dropDigits unsigned with
  | EmptyString => nonEmpty unsigned
  | String "."%char fraction => nonEmpty fraction && allDigits fraction
  | String _ _ => false
  end.

Definition isNumberString (value : string) : bool := isNumeric value.

(** ** Data model *)

(** Modelled from the spec: the interface [IUser] (interfaces/user.interface)
    is not among the sources; the spec gives a sender as an optional integer
    id, a name, an email and an optional avatar holding a [src]. *)
Record IUser : Type := {
  user_id : option Z;
  name : string;
  email : string;
  avatar : option string
}.

(** [IMail] (interfaces/mail.interface). *)
Record IMail : Type := {
  id : option Z;
  unread : option bool;
  from : IUser;
  subject : string;
  body : string;
  date : string
}.

(** The query object of the route: both fields optional strings. *)
Module PaginationParamsDto.
Record t : Type := {
  take : option string;
  skip : option string
}.
End PaginationParamsDto.

(** Modelled from the spec: the class [GetMailsPaginatedResponseDto]
    (dto/get-mails-response.dto) is not among the sources; the spec gives the
    response as the ordered slice of mails and the size of the full
    collection. *)
Module GetMailsPaginatedResponseDto.
Record t : Type := {
  mails : list IMail;
  totalCount : Z
}.
End GetMailsPaginatedResponseDto.

(** ** Exceptions, the mail store and the logger *)

(** The body of a 400 answer is one message or a list of messages. *)
Inductive ResponseMessage : Type :=
  | Single (message : string)
  | Many (messages : list string).

(** The messages of the errors the method throws to itself are template
    literals, a text followed by one interpolated value.  The value is kept
    as it is, a string or a number, rather than rendered. *)
Inductive Interpolated : Type :=
  | OfString (s : string)
  | OfNumber (n : number).

Inductive Message : Type :=
  | Template (text : string) (value : Interpolated).

Inductive Exception : Type :=
  | Error (message : Message)
  | BadRequestException (response : ResponseMessage)
  | InternalServerErrorException (message : string).

(** A line of the logger: a text followed by the interpolated error. *)
Inductive LogLine : Type :=
  | LogTemplate (text : string) (error : Exception).

(** What a call can read or write: the module-level [mails] array and the
    lines the logger has written, oldest first. *)
Record World : Type := {
  mails : list IMail;
  logged : list LogLine
}.

Inductive Outcome (A : Type) : Type :=
  | Returned (value : A)
  | Thrown (e : Exception).

Arguments Returned {A} value.
Arguments Thrown {A} e.

Definition Eff (A : Type) : Type := World -> Outcome A * World.

Definition ret {A : Type} (a : A) : Eff A := fun w => (Returned a, w).

Definition throw {A : Type} (e : Exception) : Eff A := fun w => (Thrown e, w).

Definition bind {A B : Type} (m : Eff A) (k : A -> Eff B) : Eff B :=
  fun w =>
    match m w with
    | (Returned a, w') => k a w'
    | (Thrown e, w') => (Thrown e, w')
    end.

Definition try_catch {A : Type} (block : Eff A) (handler : Exception -> Eff A)
  : Eff A :=
  fun w =>
    match block w with
    | (Returned a, w') => (Returned a, w')
    | (Thrown e, w') => handler e w'
    end.

#[global] Instance Eff_ret : MRet Eff := @ret.
#[global] Instance Eff_bind : MBind Eff := fun A B k m => bind m k.

(** [this.logger.error(line)] *)
Definition logger_error (line : LogLine) : Eff unit :=
  fun w => (Returned tt, {| mails := mails w; logged := logged w ++ [line] |}).

(** Reading the imported [mails] array. *)
Definition read_mails : Eff (list IMail) := fun w => (Returned (mails w), w).

(** [plainToInstance(GetMailsPaginatedResponseDto, {mails, totalCount})]:
    a new instance carrying the two properties of the plain object. *)
Definition plainToInstance (requestedMails : list IMail) (totalCount : Z)
  : Eff GetMailsPaginatedResponseDto.t :=
  ret {| GetMailsPaginatedResponseDto.mails := requestedMails;
         GetMailsPaginatedResponseDto.totalCount := totalCount |}.

(** ** The service *)

(** Lines 101-111: the [take] parameter, starting from the default. *)
Definition parse_take (query : PaginationParamsDto.t) (take : number)
  : Eff number :=
  match PaginationParamsDto.take query with
  | None => ret take
  | Some raw =>
      let take := parseInt raw in
      if isNaN take then
        throw (Error (Template "Invalid take parameter: " (OfString raw)))
      else if num_leb take (Num 0) then
        throw (Error (Template "Take must be a positive number (minimum 1): "
                               (OfNumber take)))
      else ret take
  end.

(** Lines 113-121: the [skip] parameter, starting from the default. *)
Definition parse_skip (query : PaginationParamsDto.t) (skip : number)
  : Eff number :=
  match PaginationParamsDto.skip query with
  | None => ret skip
  | Some raw =>
      let skip := parseInt raw in
      if isNaN skip then
        throw (Error (Template "Invalid skip parameter: " (OfString raw)))
      else if num_ltb skip (Num 0) then
        throw (Error (Template "Skip must be a positive number or zero: "
                               (OfNumber skip)))
      else ret skip
  end.

(** [MailsService.getMailPaginated], lines 93-152. *)
Definition getMailPaginated (query : PaginationParamsDto.t)
  : Eff GetMailsPaginatedResponseDto.t :=
  let take := Num 10 in
  let skip := Num 0 in
  (* Handle take, skip to number *)
  '(take, skip) ←
    try_catch
      (take ← parse_take query take;
       skip ← parse_skip query skip;
       ret (take, skip))
      (fun error =>
         logger_error (LogTemplate "Error parsing take, skip: " error);;
         throw (BadRequestException (Single "Invalid take, skip")));
  (* Get requested mails from database *)
  '(requestedMails, totalCount) ←
    try_catch
      (all ← read_mails;
       let requestedMails := slice all skip (num_add skip take) in
       again ← read_mails;
       let totalCount := Z.of_nat (length again) in
       ret (requestedMails, totalCount))
      (fun error =>
         logger_error (LogTemplate "Error getting mails from database: " error);;
         throw (InternalServerErrorException
                  "Error getting mails from database"));
  (* Build and return response *)
  try_catch
    (plainToInstance requestedMails totalCount)
    (fun error =>
       logger_error (LogTemplate "Error building response: " error);;
       throw (InternalServerErrorException "Error building response")).

(** The file also lists the method without the checks (lines 26-66): both
    parameters go through [parseInt] whether present or not, and whatever
    comes out is handed to [slice].  The unit tests of
    mails.service.spec.ts are written against this listing. *)
Module Unchecked.

(** [parseInt(undefined, 10)] parses the string "undefined". *)
Definition parseInt_arg (value : option string) : number :=
  match value with
  | Some raw => parseInt raw
  | None => parseInt "undefined"
  end.

Definition getMailPaginated (query : PaginationParamsDto.t)
  : Eff GetMailsPaginatedResponseDto.t :=
  '(take, skip) ←
    try_catch
      (let take := parseInt_arg (PaginationParamsDto.take query) in
       let skip := parseInt_arg (PaginationParamsDto.skip query) in
       ret (take, skip))
      (fun error =>
         logger_error (LogTemplate "Error parsing take, skip: " error);;
         throw (BadRequestException (Single "Invalid take, skip")));
  '(requestedMails, totalCount) ←
    try_catch
      (all ← read_mails;
       let requestedMails := slice all skip (num_add skip take) in
       again ← read_mails;
       let totalCount := Z.of_nat (length again) in
       ret (requestedMails, totalCount))
      (fun error =>
         logger_error (LogTemplate "Error getting mails from database: " error);;
         throw (InternalServerErrorException
                  "Error getting mails from database"));
  try_catch
    (plainToInstance requestedMails totalCount)
    (fun error =>
       logger_error (LogTemplate "Error building response: " error);;
       throw (InternalServerErrorException "Error building response")).

End Unchecked.

(** ** The request validator and the route *)

(** One property of [PaginationParamsDto]: [@IsOptional()] lets an absent
    value through, [@IsNumberString] reports its message otherwise. *)
Definition validate_property (value : option string) (message : string)
  : list string :=
  match value with
  | None => []
  | Some v => if isNumberString v then [] else [message]
  end.

(** The messages of all violated constraints, in property order. *)
Definition validate (query : PaginationParamsDto.t) : list string :=
  validate_property (PaginationParamsDto.take query)
                    "take must be a valid number"
  ++ validate_property (PaginationParamsDto.skip query)
                       "skip must be a valid number".

(** [new ValidationPipe({ transform: true })]: the query goes on unchanged
    when no constraint is violated, and the request is answered with a 400
    carrying the list of messages otherwise. *)
Definition ValidationPipe (query : PaginationParamsDto.t)
  : Eff PaginationParamsDto.t :=
  match validate query with
  | [] => ret query
  | errors => throw (BadRequestException (Many errors))
  end.

(** [MailsController.getMails] behind the pipe: [GET /mails]. *)
Definition getMails (query : PaginationParamsDto.t)
  : Eff GetMailsPaginatedResponseDto.t :=
  query ← ValidationPipe query;
  getMailPaginated query.

(** ** The three-record source of the unit tests *)

Definition mockUser (n : string) (withAvatar : bool) : IUser :=
  {| user_id := None;
     name := "Test User " +:+ n;
     email := "test" +:+ n +:+ "@example.com";
     avatar := if withAvatar
               then Some ("https://example.com/avatar" +:+ n +:+ ".jpg")
               else None |}.

Definition mockMail (i : Z) (n day : string) (u : option bool)
  (withAvatar : bool) : IMail :=
  {| id := Some i;
     unread := u;
     from := mockUser n withAvatar;
     subject := "Test Subject " +:+ n;
     body := "Test Body " +:+ n;
     date := "2024-01-" +:+ day +:+ "T00:00:00.000Z" |}.

Definition mockMails : list IMail :=
  [ mockMail 1 "1" "01" None true;
    mockMail 2 "2" "02" (Some true) true;
    mockMail 3 "3" "03" None false ].

Definition mockWorld : World := {| mails := mockMails; logged := [] |}.

Definition query_of (take skip : option string) : PaginationParamsDto.t :=
  {| PaginationParamsDto.take := take; PaginationParamsDto.skip := skip |}.

(** The ids of the mails a call returned; [None] when it threw. *)
Definition returned_ids (o : Outcome GetMailsPaginatedResponseDto.t)
  : option (list (option Z)) :=
  match o with
  | Returned r => Some (map id (GetMailsPaginatedResponseDto.mails r))
  | Thrown _ => None
  end.

(** ** What the statements below speak about *)

(** A parameter parses to [v]: it is absent and [v] is its default, or it
    is present and [parseInt] yields the integer [v]. *)
Definition parses_to (value : option string) (default v : Z) : Prop :=
  match value with
  | None => v = default
  | Some raw => parseInt raw = Num v
  end.

(** A parameter is present and [parseInt] yields not-a-number. *)
Definition parses_to_NaN (value : option string) : Prop :=
  match value with
  | None => False
  | Some raw => parseInt raw = NaN
  end.

(** A parameter is present and [parseInt] yields the integer [v]. *)
Definition provided (value : option string) (v : Z) : Prop :=
  match value with
  | None => False
  | Some raw => parseInt raw = Num v
  end.

(** A parameter is present and is not a numeric string. *)
Definition fails_numeric_check (value : option string) : Prop :=
  match value with
  | None => False
  | Some v => isNumberString v = false
  end.

(** The one exception the first [catch] rethrows. *)
Definition invalidTakeSkip : Exception :=
  BadRequestException (Single "Invalid take, skip").

(** The world after the logger wrote one more line. *)
Definition with_log (w : World) (line : LogLine) : World :=
  {| mails := mails w; logged := logged w ++ [line] |}.

(** The page of a successful call. *)
Definition page (w : World) (take skip : Z) : GetMailsPaginatedResponseDto.t :=
  {| GetMailsPaginatedResponseDto.mails :=
       slice (mails w) (Num skip) (Num (skip + take));
     GetMailsPaginatedResponseDto.totalCount := Z.of_nat (length (mails w)) |}.

(** A reading of "the surfaced error identifies the offending parameter":
    some function of the thrown exception alone tells [take] from [skip]. *)
Definition names_offending_parameter (name_of : Exception -> string) : Prop :=
  forall (query : PaginationParamsDto.t) (w : World) (raw : string),
    (PaginationParamsDto.take query = Some raw -> parseInt raw = NaN ->
     exists e, (getMailPaginated query w).1 = Thrown e /\ name_of e = "take")
    /\ (PaginationParamsDto.take query = None ->
        PaginationParamsDto.skip query = Some raw -> parseInt raw = NaN ->
        exists e, (getMailPaginated query w).1 = Thrown e
                  /\ name_of e = "skip").

(** Decimal numeric strings: an optional sign, digits, a point, digits. *)
Inductive Sign : Type := NoSign | Plus | Minus.

Definition sign_string (sg : Sign) : string :=
  match sg with
  | NoSign => ""
  | Plus => "+"
  | Minus => "-"
  end.

Definition sign_factor (sg : Sign) : Z :=
  match sg with
  | Minus => -1
  | _ => 1
  end.

Definition digits (s : string) : Prop :=
  nonEmpty s = true /\ allDigits s = true.

Definition decimalString (sg : Sign) (whole fraction : string) : string :=
  sign_string sg +:+ whole +:+ "." +:+ fraction.

(** The integer in front of the point. *)
Definition integerPart (sg : Sign) (whole : string) : Z :=
  sign_factor sg * mathInt (leadingDigits whole).

(** A parameter is absent, with [v] its default, or it is a decimal numeric
    string with [v] in front of the point. *)
Definition decimal_or_absent (value : option string) (default v : Z) : Prop :=
  match value with
  | None => v = default
  | Some raw =>
      exists (sg : Sign) (whole fraction : string),
        digits whole /\ digits fraction
        /\ raw = decimalString sg whole fraction
        /\ v = integerPart sg whole
  end.

(** ** Helpers of the end-to-end tests *)

(** [TestHelpers.expectUniqueMailIds]: the ids with the duplicates removed
    are as many as the ids.  The expectation is the boolean it tests. *)
Definition expectUniqueMailIds (mails : list IMail) : bool :=
  let ids := map id mails in
  let uniqueIds := remove_dups ids in
  bool_decide (length uniqueIds = length ids).

(** [TestHelpers.expectRespectsTakeLimit], on the body of a response: no
    more mails than the limit, and no more than the total. *)
Definition expectRespectsTakeLimit (body : GetMailsPaginatedResponseDto.t)
  (expectedMaxLength : number) : bool :=
  let n := Z.of_nat (length (GetMailsPaginatedResponseDto.mails body)) in
  num_leb (Num n) expectedMaxLength
  && (n <=? GetMailsPaginatedResponseDto.totalCount body).

(** The limit the tests pass to it: [parseInt(take, 10)] when the case has
    a take, 10 for the default request. *)
Definition expectedTakeLimit (query : PaginationParamsDto.t) : number :=
  match PaginationParamsDto.take query with
  | Some raw => parseInt raw
  | None => Num 10
  end.

(** ** Integers written out *)


(** ** The fixtures of the end-to-end tests *)




(** ** Proof steps used more than once *)

(** Run the method down to its matches on the parameters. *)
Ltac run_service :=
  unfold getMailPaginated, mbind, Eff_bind, bind, try_catch, parse_take,
    parse_skip, read_mails, plainToInstance, logger_error, mret, Eff_ret,
    ret, throw; simpl.

(** Settle a fact about one code unit by going through all of them. *)
Ltac by_code_unit c :=
  destruct c as [[] [] [] [] [] [] [] []]; try discriminate; reflexivity.

(** ** Lemmas on the platform functions *)

Section Slice.
Context {A : Type}.
Implicit Types (l : list A) (size start : Z).

Lemma take_cap l (n : nat) : take (n `min` length l)%nat l = take n l.
Proof.
  destruct (Nat.le_gt_cases n (length l)) as [Hle | Hgt].
  - by rewrite Nat.min_l.
  - rewrite Nat.min_r by lia. rewrite !take_ge; [done | lia | lia].
Qed.

(** With a start that is not negative and a length that is not negative,
    [slice] is: drop [start] elements, keep [size]. *)
Lemma slice_window l size start :
  0 <= start -> 0 <= size ->
  slice l (Num start) (Num (start + size))
  = take (Z.to_nat size) (drop (Z.to_nat start) l).
Proof.
  intros Hstart Hsize. unfold slice, relativeIndex, ToIntegerOrInfinity.
  destruct (Z.ltb_spec start 0) as [? | _]; [lia |].
  destruct (Z.ltb_spec (start + size) 0) as [? | _]; [lia |].
  set (len := Z.of_nat (length l)).
  destruct (Z.le_gt_cases len start) as [Hout | Hin].
  - rewrite (drop_ge l (Z.to_nat start)) by lia.
    rewrite (drop_ge l (Z.to_nat (start `min` len))) by lia.
    by rewrite !take_nil.
  - rewrite (Z.min_l start len) by lia.
    rewrite <- (take_cap (drop (Z.to_nat start) l) (Z.to_nat size)).
    f_equal. rewrite length_drop. lia.
Qed.

Lemma slice_window_length l size start :
  0 <= start -> 0 <= size ->
  Z.of_nat (length (slice l (Num start) (Num (start + size))))
  = Z.min size (Z.max 0 (Z.of_nat (length l) - start)).
Proof.
  intros Hstart Hsize. rewrite slice_window by done.
  rewrite length_take, length_drop. lia.
Qed.

Lemma slice_window_lookup l size start (i : nat) :
  0 <= start -> 0 <= size -> (i < Z.to_nat size)%nat ->
  slice l (Num start) (Num (start + size)) !! i = l !! (Z.to_nat start + i)%nat.
Proof.
  intros Hstart Hsize Hi. rewrite slice_window by done.
  rewrite lookup_take. destruct (decide (i < Z.to_nat size)%nat); [| lia].
  apply lookup_drop.
Qed.

(** The source is: what was skipped, the slice, what was left over. *)
Lemma slice_window_split l size start :
  0 <= start -> 0 <= size ->
  l = take (Z.to_nat start) l
      ++ slice l (Num start) (Num (start + size))
      ++ drop (Z.to_nat start + Z.to_nat size) l.
Proof.
  intros Hstart Hsize. rewrite slice_window by done.
  rewrite <- (drop_drop l (Z.to_nat size) (Z.to_nat start)).
  by rewrite !take_drop.
Qed.
End Slice.

(** ** The two ways a call can end *)

Section Service.
Variable query : PaginationParamsDto.t.
Variable w : World.

Let take_arg := PaginationParamsDto.take query.
Let skip_arg := PaginationParamsDto.skip query.

(** Both parameters pass: the call returns the page and leaves the world
    as it was. *)
Lemma getMailPaginated_returns (t s : Z) :
  parses_to take_arg 10 t -> parses_to skip_arg 0 s -> 1 <= t -> 0 <= s ->
  getMailPaginated query w = (Returned (page w t s), w).
Proof.
  subst take_arg skip_arg. destruct query as [qt qs]. simpl.
  intros Ht Hs Hpos Hnonneg. run_service.
  assert (Hleb : (t <=? 0) = false) by lia.
  assert (Hltb : (s <? 0) = false) by lia.
  destruct qt as [rt |], qs as [rs |]; simpl in Ht, Hs;
    rewrite ?Ht, ?Hs; subst; simpl; rewrite ?Hleb, ?Hltb; reflexivity.
Qed.

(** [take] is present and does not parse: the first [catch] logs the
    error naming [take] and rethrows the general exception. *)
Lemma getMailPaginated_take_NaN (raw : string) :
  take_arg = Some raw -> parseInt raw = NaN ->
  getMailPaginated query w
  = (Thrown invalidTakeSkip,
     with_log w
       (LogTemplate "Error parsing take, skip: "
          (Error (Template "Invalid take parameter: " (OfString raw))))).
Proof.
  subst take_arg. destruct query as [qt qs]. simpl.
  intros -> Hnan. run_service. by rewrite Hnan.
Qed.

(** [take] is present and parses to an integer below 1. *)
Lemma getMailPaginated_take_range (raw : string) (t : Z) :
  take_arg = Some raw -> parseInt raw = Num t -> t <= 0 ->
  getMailPaginated query w
  = (Thrown invalidTakeSkip,
     with_log w
       (LogTemplate "Error parsing take, skip: "
          (Error (Template "Take must be a positive number (minimum 1): "
                           (OfNumber (Num t)))))).
Proof.
  subst take_arg. destruct query as [qt qs]. simpl.
  intros -> Hnum Hle. run_service. rewrite Hnum. simpl.
  assert (Hleb : (t <=? 0) = true) by lia. by rewrite Hleb.
Qed.

(** [take] passes, [skip] is present and does not parse. *)
Lemma getMailPaginated_skip_NaN (raw : string) (t : Z) :
  parses_to take_arg 10 t -> 1 <= t ->
  skip_arg = Some raw -> parseInt raw = NaN ->
  getMailPaginated query w
  = (Thrown invalidTakeSkip,
     with_log w
       (LogTemplate "Error parsing take, skip: "
          (Error (Template "Invalid skip parameter: " (OfString raw))))).
Proof.
  subst take_arg skip_arg. destruct query as [qt qs]. simpl.
  intros Ht Hpos -> Hnan. run_service.
  assert (Hleb : (t <=? 0) = false) by lia.
  destruct qt as [rt |]; simpl in Ht; rewrite ?Ht; simpl;
    rewrite ?Hleb, Hnan; reflexivity.
Qed.

(** [take] passes, [skip] is present and parses to a negative integer. *)
Lemma getMailPaginated_skip_range (raw : string) (t s : Z) :
  parses_to take_arg 10 t -> 1 <= t ->
  skip_arg = Some raw -> parseInt raw = Num s -> s < 0 ->
  getMailPaginated query w
  = (Thrown invalidTakeSkip,
     with_log w
       (LogTemplate "Error parsing take, skip: "
          (Error (Template "Skip must be a positive number or zero: "
                           (OfNumber (Num s)))))).
Proof.
  subst take_arg skip_arg. destruct query as [qt qs]. simpl.
  intros Ht Hpos -> Hnum Hneg. run_service.
  assert (Hleb : (t <=? 0) = false) by lia.
  assert (Hltb : (s <? 0) = true) by lia.
  destruct qt as [rt |]; simpl in Ht; rewrite ?Ht; simpl;
    rewrite ?Hleb, Hnum; simpl; rewrite Hltb; reflexivity.
Qed.

(** Every call ends in one of two ways: it returns the page of two
    parameters that passed, or it throws the general 400 after one more
    log line.  Either way the mail store is the one it started from. *)
Lemma getMailPaginated_cases :
  (exists t s : Z,
      parses_to take_arg 10 t /\ parses_to skip_arg 0 s /\
      1 <= t /\ 0 <= s /\
      getMailPaginated query w = (Returned (page w t s), w))
  \/ (exists line : LogLine,
        getMailPaginated query w = (Thrown invalidTakeSkip, with_log w line)).
Proof.
  assert (Htake :
    (exists t, parses_to take_arg 10 t /\ 1 <= t)
    \/ (exists raw, take_arg = Some raw /\ parseInt raw = NaN)
    \/ (exists raw t, take_arg = Some raw /\ parseInt raw = Num t /\ t <= 0)).
  { destruct take_arg as [raw |] eqn:E; simpl.
    - destruct (parseInt raw) as [| t] eqn:P.
      + right; left; eauto.
      + destruct (Z.le_gt_cases t 0); [right; right; eauto |].
        left; exists t; split; [done | lia].
    - left; exists 10; split; [done | lia]. }
  destruct Htake as [(t & Ht & Hpos) | [(raw & E & P) | (raw & t & E & P & Hle)]].
  - destruct skip_arg as [raw |] eqn:E.
    + destruct (parseInt raw) as [| s] eqn:P.
      * right; eexists. eapply getMailPaginated_skip_NaN; eauto.
      * destruct (Z.lt_ge_cases s 0) as [Hneg | Hnonneg].
        -- right; eexists. eapply getMailPaginated_skip_range; eauto.
        -- left; exists t, s. repeat split; try done.
           apply getMailPaginated_returns; try done.
           fold skip_arg. by rewrite E.
    + left; exists t, 0. repeat split; try done.
      apply getMailPaginated_returns; try done.
      fold skip_arg. by rewrite E.
  - right; eexists. eapply getMailPaginated_take_NaN; eauto.
  - right; eexists. eapply getMailPaginated_take_range; eauto.
Qed.
End Service.

(** ** Evaluating the method on the three-record source *)

Lemma parseInt_10 : parseInt "10" = Num 10.
Proof. reflexivity. Qed.

Lemma parseInt_0 : parseInt "0" = Num 0.
Proof. reflexivity. Qed.

(** Scenarios A, B and C of the spec, and the default page. *)
Example scenario_A :
  returned_ids (getMailPaginated (query_of (Some "10") (Some "0")) mockWorld).1
  = Some [Some 1; Some 2; Some 3].
Proof. reflexivity. Qed.

Example scenario_B :
  returned_ids (getMailPaginated (query_of (Some "2") (Some "1")) mockWorld).1
  = Some [Some 2; Some 3].
Proof. reflexivity. Qed.

Example scenario_C :
  returned_ids (getMailPaginated (query_of (Some "10") (Some "5")) mockWorld).1
  = Some [].
Proof. reflexivity. Qed.

(** The unit tests that only the listing without checks passes: a zero or
    negative [take], a negative [skip] and a [take] that is no number all
    come back as an empty page. *)
Example unchecked_zero_take :
  returned_ids
    (Unchecked.getMailPaginated (query_of (Some "0") (Some "0")) mockWorld).1
  = Some [].
Proof. reflexivity. Qed.

Example unchecked_negative_skip :
  returned_ids
    (Unchecked.getMailPaginated (query_of (Some "2") (Some "-1")) mockWorld).1
  = Some [].
Proof. reflexivity. Qed.

Example unchecked_invalid_take :
  returned_ids
    (Unchecked.getMailPaginated (query_of (Some "invalid") (Some "0"))
       mockWorld).1
  = Some [].
Proof. reflexivity. Qed.

(** Without the checks an absent parameter is parsed all the same, as the
    string "undefined", and the page comes back empty. *)
Example unchecked_absent_parameters :
  returned_ids (Unchecked.getMailPaginated (query_of None None) mockWorld).1
  = Some [].
Proof. reflexivity. Qed.

(** ** Length, total and content of the page *)

(** C1: when the parameters parse to take >= 1 and skip >= 0, the call
    returns, without an error and without touching the world, a page whose
    length is min(take, max(0, totalCount - skip)), totalCount being the
    size of the source; the page is empty when skip is at or past the end,
    and it is everything from skip on when skip + take reaches past the
    end. *)
Theorem page_length (query : PaginationParamsDto.t) (w : World) (t s : Z) :
  parses_to (PaginationParamsDto.take query) 10 t ->
  parses_to (PaginationParamsDto.skip query) 0 s ->
  1 <= t -> 0 <= s ->
  exists r : GetMailsPaginatedResponseDto.t,
    getMailPaginated query w = (Returned r, w)
    /\ Z.of_nat (length (GetMailsPaginatedResponseDto.mails r))
       = Z.min t (Z.max 0 (Z.of_nat (length (mails w)) - s))
    /\ (Z.of_nat (length (mails w)) <= s ->
        GetMailsPaginatedResponseDto.mails r = [])
    /\ (Z.of_nat (length (mails w)) <= s + t ->
        GetMailsPaginatedResponseDto.mails r = drop (Z.to_nat s) (mails w)).
Proof.
  intros Ht Hs Hpos Hnonneg. exists (page w t s).
  split; [by apply getMailPaginated_returns |]. simpl.
  split; [apply slice_window_length; lia |].
  rewrite slice_window by lia. split; intros Hend.
  - rewrite drop_ge; [apply take_nil | lia].
  - apply take_ge. rewrite length_drop. lia.
Qed.

Lemma page_length_witness :
  (parses_to (Some "10") 10 10 /\ parses_to (Some "2") 0 2
   /\ 1 <= 10 /\ 0 <= 2)
  /\ exists r : GetMailsPaginatedResponseDto.t,
       getMailPaginated (query_of (Some "10") (Some "2")) mockWorld
       = (Returned r, mockWorld)
       /\ Z.of_nat (length (GetMailsPaginatedResponseDto.mails r))
          = Z.min 10 (Z.max 0 (Z.of_nat (length (mails mockWorld)) - 2))
       /\ (Z.of_nat (length (mails mockWorld)) <= 2 ->
           GetMailsPaginatedResponseDto.mails r = [])
       /\ (Z.of_nat (length (mails mockWorld)) <= 2 + 10 ->
           GetMailsPaginatedResponseDto.mails r
           = drop (Z.to_nat 2) (mails mockWorld)).
Proof.
  assert (Ht : parses_to (Some "10") 10 10) by reflexivity.
  assert (Hs : parses_to (Some "2") 0 2) by reflexivity.
  assert (Hpos : 1 <= 10) by lia.
  assert (Hnonneg : 0 <= 2) by lia.
  split; [tauto |].
  exact (page_length (query_of (Some "10") (Some "2")) mockWorld 10 2
           Ht Hs Hpos Hnonneg).
Defined.

(** C2: whenever the call returns, the totalCount of the result is the size
    of the full source, so any two calls that return over the same source,
    whatever their take and skip, report the same totalCount. *)
Theorem totalCount_is_source_size
  (query : PaginationParamsDto.t) (w w' : World)
  (r : GetMailsPaginatedResponseDto.t) :
  getMailPaginated query w = (Returned r, w') ->
  GetMailsPaginatedResponseDto.totalCount r = Z.of_nat (length (mails w))
  /\ forall (other : PaginationParamsDto.t) (logs : list LogLine)
       (r2 : GetMailsPaginatedResponseDto.t),
       (getMailPaginated other {| mails := mails w; logged := logs |}).1
       = Returned r2 ->
       GetMailsPaginatedResponseDto.totalCount r2
       = GetMailsPaginatedResponseDto.totalCount r.
Proof.
  assert (Htotal : forall q v res,
             (getMailPaginated q v).1 = Returned res ->
             GetMailsPaginatedResponseDto.totalCount res
             = Z.of_nat (length (mails v))).
  { intros q v res Hres.
    destruct (getMailPaginated_cases q v)
      as [(t & s & _ & _ & _ & _ & E) | (line & E)];
      rewrite E in Hres; simpl in Hres; [| discriminate].
    injection Hres as <-. reflexivity. }
  intros Hcall. split.
  - apply (Htotal query). by rewrite Hcall.
  - intros other logs r2 Hother.
    rewrite (Htotal other _ r2 Hother). simpl. symmetry.
    apply (Htotal query). by rewrite Hcall.
Qed.

Lemma totalCount_is_source_size_witness :
  getMailPaginated (query_of (Some "2") (Some "1")) mockWorld
  = (Returned (page mockWorld 2 1), mockWorld)
  /\ GetMailsPaginatedResponseDto.totalCount (page mockWorld 2 1) = 3
  /\ forall (other : PaginationParamsDto.t) (logs : list LogLine)
       (r2 : GetMailsPaginatedResponseDto.t),
       (getMailPaginated other {| mails := mockMails; logged := logs |}).1
       = Returned r2 ->
       GetMailsPaginatedResponseDto.totalCount r2
       = GetMailsPaginatedResponseDto.totalCount (page mockWorld 2 1).
Proof.
  assert (Hcall : getMailPaginated (query_of (Some "2") (Some "1")) mockWorld
                  = (Returned (page mockWorld 2 1), mockWorld))
    by reflexivity.
  split; [exact Hcall |].
  exact (totalCount_is_source_size (query_of (Some "2") (Some "1"))
           mockWorld mockWorld (page mockWorld 2 1) Hcall).
Defined.

(** C3: when the parameters parse to take >= 1 and skip >= 0, the call
    returns, and the mails of the page are the run of the source that starts
    at index skip: the source is what was skipped, then the page, then the
    rest, and the element at index i of the page is the element at index
    skip + i of the source. *)
Theorem page_is_contiguous_run
  (query : PaginationParamsDto.t) (w : World) (t s : Z) :
  parses_to (PaginationParamsDto.take query) 10 t ->
  parses_to (PaginationParamsDto.skip query) 0 s ->
  1 <= t -> 0 <= s ->
  exists r : GetMailsPaginatedResponseDto.t,
    getMailPaginated query w = (Returned r, w)
    /\ GetMailsPaginatedResponseDto.mails r
       = take (Z.to_nat t) (drop (Z.to_nat s) (mails w))
    /\ mails w
       = take (Z.to_nat s) (mails w)
         ++ GetMailsPaginatedResponseDto.mails r
         ++ drop (Z.to_nat s + Z.to_nat t) (mails w)
    /\ forall i : nat,
         (i < length (GetMailsPaginatedResponseDto.mails r))%nat ->
         GetMailsPaginatedResponseDto.mails r !! i
         = mails w !! (Z.to_nat s + i)%nat.
Proof.
  intros Ht Hs Hpos Hnonneg. exists (page w t s).
  split; [by apply getMailPaginated_returns |]. simpl.
  split; [apply slice_window; lia |].
  split; [apply slice_window_split; lia |].
  intros i Hi. apply slice_window_lookup; try lia.
  rewrite slice_window, length_take in Hi by lia. lia.
Qed.

Lemma page_is_contiguous_run_witness :
  (parses_to (Some "2") 10 2 /\ parses_to (Some "1") 0 1
   /\ 1 <= 2 /\ 0 <= 1)
  /\ exists r : GetMailsPaginatedResponseDto.t,
       getMailPaginated (query_of (Some "2") (Some "1")) mockWorld
       = (Returned r, mockWorld)
       /\ GetMailsPaginatedResponseDto.mails r
          = take (Z.to_nat 2) (drop (Z.to_nat 1) (mails mockWorld))
       /\ mails mockWorld
          = take (Z.to_nat 1) (mails mockWorld)
            ++ GetMailsPaginatedResponseDto.mails r
            ++ drop (Z.to_nat 1 + Z.to_nat 2) (mails mockWorld)
       /\ forall i : nat,
            (i < length (GetMailsPaginatedResponseDto.mails r))%nat ->
            GetMailsPaginatedResponseDto.mails r !! i
            = mails mockWorld !! (Z.to_nat 1 + i)%nat.
Proof.
  assert (Ht : parses_to (Some "2") 10 2) by reflexivity.
  assert (Hs : parses_to (Some "1") 0 1) by reflexivity.
  assert (Hpos : 1 <= 2) by lia.
  assert (Hnonneg : 0 <= 1) by lia.
  split; [tauto |].
  exact (page_is_contiguous_run (query_of (Some "2") (Some "1")) mockWorld
           2 1 Ht Hs Hpos Hnonneg).
Defined.

(** C4: a call without take behaves as the same call with take = 10, a
    call without skip behaves as the same call with skip = 0, and a call
    with neither returns the first 10 records of the source (all of them
    when there are fewer) together with its size. *)
Theorem absent_parameters_take_defaults
  (take_arg skip_arg : option string) (w : World) :
  getMailPaginated (query_of None skip_arg) w
  = getMailPaginated (query_of (Some "10") skip_arg) w
  /\ getMailPaginated (query_of take_arg None) w
     = getMailPaginated (query_of take_arg (Some "0")) w
  /\ getMailPaginated (query_of None None) w
     = (Returned
          {| GetMailsPaginatedResponseDto.mails := take 10 (mails w);
             GetMailsPaginatedResponseDto.totalCount :=
               Z.of_nat (length (mails w)) |},
        w).
Proof.
  split; [| split].
  - run_service. by rewrite parseInt_10.
  - run_service. by rewrite parseInt_0.
  - rewrite (getMailPaginated_returns (query_of None None) w 10 0);
      [| reflexivity | reflexivity | lia | lia].
    unfold page. by rewrite slice_window by lia.
Qed.

(** ** Failures *)

Section Failures.
Variable query : PaginationParamsDto.t.
Variable w : World.

(** A [take] that is present and parses to an integer below 1 ends the
    call with the general 400, whatever [skip] is. *)
Lemma take_below_one_throws (v : Z) :
  provided (PaginationParamsDto.take query) v -> v <= 0 ->
  (getMailPaginated query w).1 = Thrown invalidTakeSkip.
Proof.
  destruct (PaginationParamsDto.take query) as [raw |] eqn:E; [| done].
  simpl. intros Hnum Hle.
  by rewrite (getMailPaginated_take_range query w raw v).
Qed.

(** So does a [skip] that is present and parses to a negative integer,
    whatever [take] is. *)
Lemma skip_negative_throws (v : Z) :
  provided (PaginationParamsDto.skip query) v -> v < 0 ->
  (getMailPaginated query w).1 = Thrown invalidTakeSkip.
Proof.
  intros Hnum Hneg.
  destruct (getMailPaginated_cases query w)
    as [(t & s & _ & Hs & _ & Hnonneg & _) | (line & E)];
    [| by rewrite E].
  destruct (PaginationParamsDto.skip query) as [raw |]; [| done].
  simpl in Hnum, Hs. rewrite Hnum in Hs. injection Hs as ->. lia.
Qed.

(** And so does a parameter that is present and does not parse. *)
Lemma take_NaN_throws :
  parses_to_NaN (PaginationParamsDto.take query) ->
  (getMailPaginated query w).1 = Thrown invalidTakeSkip.
Proof.
  destruct (PaginationParamsDto.take query) as [raw |] eqn:E; [| done].
  simpl. intros Hnan. by rewrite (getMailPaginated_take_NaN query w raw).
Qed.

Lemma skip_NaN_throws :
  parses_to_NaN (PaginationParamsDto.skip query) ->
  (getMailPaginated query w).1 = Thrown invalidTakeSkip.
Proof.
  intros Hnan.
  destruct (getMailPaginated_cases query w)
    as [(t & s & _ & Hs & _ & _ & _) | (line & E)];
    [| by rewrite E].
  destruct (PaginationParamsDto.skip query) as [raw |]; [| done].
  simpl in Hnan, Hs. congruence.
Qed.

(** A call that throws leaves exactly one more log line behind; a call
    that returns leaves none. *)
Lemma thrown_logs_once (e : Exception) (w' : World) :
  getMailPaginated query w = (Thrown e, w') ->
  e = invalidTakeSkip /\ exists line, w' = with_log w line.
Proof.
  destruct (getMailPaginated_cases query w)
    as [(t & s & _ & _ & _ & _ & E) | (line & E)];
    rewrite E; intros [= <- <-]; eauto.
Qed.
End Failures.

(** ** The validator *)

Lemma validate_property_nil (value : option string) (message : string) :
  validate_property value message = [] <-> ~ fails_numeric_check value.
Proof.
  destruct value as [v |]; simpl; [| tauto].
  destruct (isNumberString v); split; done.
Qed.

Lemma validate_property_cons (value : option string) (message : string) :
  fails_numeric_check value -> validate_property value message = [message].
Proof.
  destruct value as [v |]; simpl; [| done]. by intros ->.
Qed.

Lemma elem_of_validate (query : PaginationParamsDto.t) (m : string) :
  m ∈ validate query <->
  (m = "take must be a valid number"
   /\ fails_numeric_check (PaginationParamsDto.take query))
  \/ (m = "skip must be a valid number"
      /\ fails_numeric_check (PaginationParamsDto.skip query)).
Proof.
  unfold validate. rewrite elem_of_app.
  assert (Hone : forall value message,
             m ∈ validate_property value message
             <-> m = message /\ fails_numeric_check value).
  { intros [v |] message; simpl.
    - destruct (isNumberString v).
      + rewrite elem_of_nil. split; [done | by intros [_ ?]].
      + rewrite list_elem_of_singleton. tauto.
    - rewrite elem_of_nil. tauto. }
  by rewrite !Hone.
Qed.

(** A request with a parameter that is not a numeric string never reaches
    the service: the pipe answers with the list of messages. *)
Lemma getMails_rejected (query : PaginationParamsDto.t) (w : World) :
  validate query <> [] ->
  getMails query w = (Thrown (BadRequestException (Many (validate query))), w).
Proof.
  intros Hbad. unfold getMails, ValidationPipe, mbind, Eff_bind, bind.
  destruct (validate query) as [| m ms]; [done | reflexivity].
Qed.

(** A request whose parameters all pass is handed to the service as is. *)
Lemma getMails_accepted (query : PaginationParamsDto.t) (w : World) :
  validate query = [] -> getMails query w = getMailPaginated query w.
Proof.
  intros Hok. unfold getMails, ValidationPipe, mbind, Eff_bind, bind.
  rewrite Hok. simpl. by destruct (getMailPaginated query w) as [[r | e] w'].
Qed.

Lemma with_log_inj (w : World) (l1 l2 : LogLine) :
  with_log w l1 = with_log w l2 -> l1 = l2.
Proof.
  unfold with_log. intros [= Heq]. apply app_inv_head in Heq. congruence.
Qed.

(** C5: a call whose take parses to an integer <= 0 or whose skip parses
    to an integer < 0 fails with the one general message
    "Invalid take, skip"; a request with a parameter that is not a numeric
    string fails in the validator with a list holding the message of each
    such field; the two errors differ. *)
Theorem range_error_differs_from_validation_error
  (query rejected : PaginationParamsDto.t) (w w' : World) (v : Z) :
  (provided (PaginationParamsDto.take query) v /\ v <= 0)
  \/ (provided (PaginationParamsDto.skip query) v /\ v < 0) ->
  fails_numeric_check (PaginationParamsDto.take rejected)
  \/ fails_numeric_check (PaginationParamsDto.skip rejected) ->
  (getMailPaginated query w).1
  = Thrown (BadRequestException (Single "Invalid take, skip"))
  /\ exists messages : list string,
       (getMails rejected w').1
       = Thrown (BadRequestException (Many messages))
       /\ (forall m : string,
             m ∈ messages <->
             (m = "take must be a valid number"
              /\ fails_numeric_check (PaginationParamsDto.take rejected))
             \/ (m = "skip must be a valid number"
                 /\ fails_numeric_check (PaginationParamsDto.skip rejected)))
       /\ (getMailPaginated query w).1 <> (getMails rejected w').1.
Proof.
  intros Hrange Hbad.
  assert (Hthrown : (getMailPaginated query w).1 = Thrown invalidTakeSkip).
  { destruct Hrange as [[Hp Hv] | [Hp Hv]].
    - by apply (take_below_one_throws query w v).
    - by apply (skip_negative_throws query w v). }
  split; [exact Hthrown |].
  assert (Hne : validate rejected <> []).
  { intros Hnil.
    assert (Hnone : forall m, m ∉ validate rejected)
      by (intros m; rewrite Hnil; apply not_elem_of_nil).
    destruct Hbad as [Hbad | Hbad].
    - apply (Hnone "take must be a valid number").
      apply elem_of_validate. by left.
    - apply (Hnone "skip must be a valid number").
      apply elem_of_validate. by right. }
  exists (validate rejected).
  rewrite (getMails_rejected rejected w' Hne), Hthrown. simpl.
  split; [done |]. split; [apply elem_of_validate | done].
Qed.

Lemma range_error_differs_from_validation_error_witness :
  ((provided (Some "0") 0 /\ 0 <= 0) \/ (provided None 0 /\ 0 < 0))
  /\ (fails_numeric_check (Some "invalid") \/ fails_numeric_check None)
  /\ (getMailPaginated (query_of (Some "0") None) mockWorld).1
     = Thrown (BadRequestException (Single "Invalid take, skip"))
  /\ (getMailPaginated (query_of (Some "0") None) mockWorld).1
     <> (getMails (query_of (Some "invalid") None) mockWorld).1.
Proof.
  assert (Hrange : (provided (Some "0") 0 /\ 0 <= 0)
                   \/ (provided None 0 /\ 0 < 0)).
  { left. split; [reflexivity | lia]. }
  assert (Hbad : fails_numeric_check (Some "invalid")
                 \/ fails_numeric_check None).
  { left. reflexivity. }
  destruct (range_error_differs_from_validation_error
              (query_of (Some "0") None) (query_of (Some "invalid") None)
              mockWorld mockWorld 0 Hrange Hbad)
    as (Hthrown & messages & _ & _ & Hdiffer).
  split; [exact Hrange |]. split; [exact Hbad |].
  split; [exact Hthrown | exact Hdiffer].
Defined.

(** C6, as the code has it: when a provided take or skip parses to
    not-a-number the call returns no result and fails with the general
    client error "Invalid take, skip", the same for either parameter; the
    offending parameter is named only in the line the logger writes, for
    the first parameter that fails. *)
Theorem unparsable_parameter_fails_with_general_error
  (query : PaginationParamsDto.t) (w : World) :
  parses_to_NaN (PaginationParamsDto.take query)
  \/ parses_to_NaN (PaginationParamsDto.skip query) ->
  exists line : LogLine,
    getMailPaginated query w
    = (Thrown (BadRequestException (Single "Invalid take, skip")),
       with_log w line)
    /\ (forall raw : string,
          PaginationParamsDto.take query = Some raw -> parseInt raw = NaN ->
          line = LogTemplate "Error parsing take, skip: "
                   (Error (Template "Invalid take parameter: "
                                    (OfString raw))))
    /\ (forall (raw : string) (t : Z),
          parses_to (PaginationParamsDto.take query) 10 t -> 1 <= t ->
          PaginationParamsDto.skip query = Some raw -> parseInt raw = NaN ->
          line = LogTemplate "Error parsing take, skip: "
                   (Error (Template "Invalid skip parameter: "
                                    (OfString raw)))).
Proof.
  intros Hnan.
  assert (Hthrown : (getMailPaginated query w).1 = Thrown invalidTakeSkip).
  { destruct Hnan; [by apply take_NaN_throws | by apply skip_NaN_throws]. }
  destruct (getMailPaginated query w) as [o w1] eqn:E. simpl in Hthrown.
  subst o. destruct (thrown_logs_once query w _ _ E) as (_ & line & ->).
  exists line. split; [reflexivity |]. split.
  - intros raw Hraw Hparse.
    rewrite (getMailPaginated_take_NaN query w raw Hraw Hparse) in E.
    symmetry. apply (with_log_inj w). congruence.
  - intros raw t Ht Hpos Hraw Hparse.
    rewrite (getMailPaginated_skip_NaN query w raw t Ht Hpos Hraw Hparse) in E.
    symmetry. apply (with_log_inj w). congruence.
Qed.

Lemma unparsable_parameter_fails_with_general_error_witness :
  (parses_to_NaN (Some "abc") \/ parses_to_NaN None)
  /\ exists line : LogLine,
       getMailPaginated (query_of (Some "abc") None) mockWorld
       = (Thrown (BadRequestException (Single "Invalid take, skip")),
          with_log mockWorld line).
Proof.
  assert (Hnan : parses_to_NaN (Some "abc") \/ parses_to_NaN None)
    by (left; reflexivity).
  split; [exact Hnan |].
  destruct (unparsable_parameter_fails_with_general_error
              (query_of (Some "abc") None) mockWorld Hnan)
    as (line & Hcall & _).
  exists line. exact Hcall.
Defined.

(** C6, as the claim has it, fails: a take that does not parse and a skip
    that does not parse throw the very same exception, so nothing in the
    surfaced error tells which parameter offended. *)
Lemma unparsable_take_and_skip_throw_alike :
  (getMailPaginated (query_of (Some "abc") None) mockWorld).1
  = Thrown (BadRequestException (Single "Invalid take, skip"))
  /\ (getMailPaginated (query_of None (Some "abc")) mockWorld).1
     = Thrown (BadRequestException (Single "Invalid take, skip"))
  /\ ~ (exists name_of : Exception -> string,
          names_offending_parameter name_of).
Proof.
  split; [reflexivity |]. split; [reflexivity |].
  intros (name_of & Hnames).
  destruct (Hnames (query_of (Some "abc") None) mockWorld "abc")
    as [Htake _].
  destruct (Hnames (query_of None (Some "abc")) mockWorld "abc")
    as [_ Hskip].
  destruct Htake as (e1 & He1 & Hn1); [reflexivity | reflexivity |].
  destruct Hskip as (e2 & He2 & Hn2); [reflexivity | reflexivity | reflexivity |].
  vm_compute in He1, He2. injection He1 as <-. injection He2 as <-.
  rewrite Hn1 in Hn2. discriminate.
Qed.

(** C7: when a provided take parses to an integer <= 0, or a provided skip
    parses to an integer < 0, the call returns no slice: it throws the 400
    of the range error after logging the violated rule, "Take must be a
    positive number (minimum 1)" for take and, when take itself passes,
    "Skip must be a positive number or zero" for skip. *)
Theorem out_of_range_parameter_fails
  (query : PaginationParamsDto.t) (w : World) (v : Z) :
  (provided (PaginationParamsDto.take query) v /\ v <= 0)
  \/ (provided (PaginationParamsDto.skip query) v /\ v < 0) ->
  exists line : LogLine,
    getMailPaginated query w
    = (Thrown (BadRequestException (Single "Invalid take, skip")),
       with_log w line)
    /\ (provided (PaginationParamsDto.take query) v -> v <= 0 ->
        line = LogTemplate "Error parsing take, skip: "
                 (Error (Template "Take must be a positive number (minimum 1): "
                                  (OfNumber (Num v)))))
    /\ (forall t : Z,
          parses_to (PaginationParamsDto.take query) 10 t -> 1 <= t ->
          provided (PaginationParamsDto.skip query) v -> v < 0 ->
          line = LogTemplate "Error parsing take, skip: "
                 (Error (Template "Skip must be a positive number or zero: "
                                  (OfNumber (Num v))))).
Proof.
  intros Hrange.
  assert (Hthrown : (getMailPaginated query w).1 = Thrown invalidTakeSkip).
  { destruct Hrange as [[Hp Hv] | [Hp Hv]].
    - by apply (take_below_one_throws query w v).
    - by apply (skip_negative_throws query w v). }
  destruct (getMailPaginated query w) as [o w1] eqn:E. simpl in Hthrown.
  subst o. destruct (thrown_logs_once query w _ _ E) as (_ & line & ->).
  exists line. split; [reflexivity |]. split.
  - intros Hp Hv.
    destruct (PaginationParamsDto.take query) as [raw |] eqn:Hraw; [| done].
    rewrite (getMailPaginated_take_range query w raw v Hraw Hp Hv) in E.
    symmetry. apply (with_log_inj w). congruence.
  - intros t Ht Hpos Hp Hv.
    destruct (PaginationParamsDto.skip query) as [raw |] eqn:Hraw; [| done].
    rewrite (getMailPaginated_skip_range query w raw t v Ht Hpos Hraw Hp Hv)
      in E.
    symmetry. apply (with_log_inj w). congruence.
Qed.

Lemma out_of_range_parameter_fails_witness :
  ((provided (Some "0") 0 /\ 0 <= 0) \/ (provided None 0 /\ 0 < 0))
  /\ getMailPaginated (query_of (Some "0") None) mockWorld
     = (Thrown (BadRequestException (Single "Invalid take, skip")),
        with_log mockWorld
          (LogTemplate "Error parsing take, skip: "
             (Error (Template "Take must be a positive number (minimum 1): "
                              (OfNumber (Num 0)))))).
Proof.
  assert (Hp : provided (Some "0") 0) by reflexivity.
  assert (Hv : 0 <= 0) by lia.
  assert (Hrange : (provided (Some "0") 0 /\ 0 <= 0)
                   \/ (provided None 0 /\ 0 < 0))
    by (left; split; [exact Hp | exact Hv]).
  split; [exact Hrange |].
  destruct (out_of_range_parameter_fails
              (query_of (Some "0") None) mockWorld 0 Hrange)
    as (line & Hcall & Htake & _).
  rewrite Hcall, (Htake Hp Hv). reflexivity.
Defined.

(** ** Decimal numeric strings *)

Section Decimal.
Implicit Types (c : ascii) (whole fraction rest : string) (sg : Sign).

Lemma digit_is_no_white_space c rest :
  isDigit c = true -> trimStart (String c rest) = String c rest.
Proof. by_code_unit c. Qed.

Lemma digit_is_no_sign c rest :
  isDigit c = true -> splitSign (String c rest) = (1, String c rest).
Proof. by_code_unit c. Qed.

Lemma isDigit_digitValue c :
  isDigit c = true -> exists d, digitValue c = Some d.
Proof. unfold isDigit. destruct (digitValue c) as [d |]; [eauto | done]. Qed.

(** The digits of a parse stop at the point. *)
Lemma leadingDigits_point whole fraction :
  allDigits whole = true ->
  leadingDigits (whole +:+ "." +:+ fraction) = leadingDigits whole.
Proof.
  induction whole as [| c rest IH]; simpl; [done |].
  intros [Hc Hrest]%andb_prop.
  destruct (isDigit_digitValue c Hc) as [d ->]. by rewrite IH.
Qed.

Lemma leadingDigits_digits whole :
  digits whole -> leadingDigits whole <> [].
Proof.
  intros [Hne Hall]. destruct whole as [| c rest]; [done |].
  simpl in Hall. apply andb_prop in Hall as [Hc _].
  simpl. by destruct (isDigit_digitValue c Hc) as [d ->].
Qed.

Lemma dropDigits_point whole fraction :
  allDigits whole = true ->
  dropDigits (whole +:+ "." +:+ fraction) = String "." fraction.
Proof.
  induction whole as [| c rest IH]; simpl; [done |].
  intros [Hc Hrest]%andb_prop. rewrite Hc. by apply IH.
Qed.

(** What [parseInt] and the validator see behind the optional sign. *)
Lemma decimalString_split sg whole fraction :
  digits whole ->
  trimStart (decimalString sg whole fraction)
  = decimalString sg whole fraction
  /\ splitSign (decimalString sg whole fraction)
     = (sign_factor sg, whole +:+ "." +:+ fraction).
Proof.
  intros [Hne Hall]. destruct sg; [| by split | by split].
  destruct whole as [| c rest]; [done |].
  simpl in Hall. apply andb_prop in Hall as [Hc _].
  unfold decimalString. simpl.
  split; [by apply digit_is_no_white_space | by apply digit_is_no_sign].
Qed.

(** [parseInt] keeps what is in front of the point. *)
Lemma parseInt_decimalString sg whole fraction :
  digits whole ->
  parseInt (decimalString sg whole fraction) = Num (integerPart sg whole).
Proof.
  intros Hwhole. unfold parseInt, integerPart.
  destruct (decimalString_split sg whole fraction Hwhole) as [-> ->].
  rewrite leadingDigits_point by apply Hwhole.
  pose proof (leadingDigits_digits whole Hwhole) as Hne.
  by destruct (leadingDigits whole).
Qed.

(** The validator takes every decimal numeric string for a number. *)
Lemma isNumberString_decimalString sg whole fraction :
  digits whole -> digits fraction ->
  isNumberString (decimalString sg whole fraction) = true.
Proof.
  intros Hwhole [Hne Hall]. unfold isNumberString, isNumeric.
  destruct (decimalString_split sg whole fraction Hwhole) as [_ ->].
  simpl. rewrite dropDigits_point by apply Hwhole.
  by rewrite Hne, Hall.
Qed.

Lemma decimal_or_absent_parses (value : option string) (default v : Z) :
  decimal_or_absent value default v ->
  parses_to value default v /\ ~ fails_numeric_check value.
Proof.
  destruct value as [raw |]; simpl; [| tauto].
  intros (sg & whole & fraction & Hwhole & Hfraction & -> & ->).
  split; [by apply parseInt_decimalString |].
  by rewrite isNumberString_decimalString.
Qed.
End Decimal.

Example scenario_F :
  parseInt "2.5" = Num 2 /\ parseInt "1.7" = Num 1
  /\ validate (query_of (Some "2.5") (Some "1.7")) = []
  /\ returned_ids
       (getMails (query_of (Some "2.5") (Some "1.7")) mockWorld).1
     = Some [Some 2; Some 3].
Proof. repeat split. Qed.

(** C8, as the code has it: every decimal numeric string supplied as take
    or skip passes the validator and is cut down by the service to the
    integer in front of its point; the request then succeeds with the page
    of those integers when take is at least 1 and skip at least 0, and is
    rejected with "Invalid take, skip" otherwise.  With take "2.5" and skip
    "1.7" over the source with ids 1, 2, 3 it returns the ids 2, 3. *)
Theorem decimal_parameters_are_truncated
  (query : PaginationParamsDto.t) (w : World) (t s : Z) :
  decimal_or_absent (PaginationParamsDto.take query) 10 t ->
  decimal_or_absent (PaginationParamsDto.skip query) 0 s ->
  validate query = []
  /\ parses_to (PaginationParamsDto.take query) 10 t
  /\ parses_to (PaginationParamsDto.skip query) 0 s
  /\ (1 <= t -> 0 <= s -> getMails query w = (Returned (page w t s), w))
  /\ (t <= 0 \/ s < 0 ->
      (getMails query w).1
      = Thrown (BadRequestException (Single "Invalid take, skip")))
  /\ returned_ids (getMails (query_of (Some "2.5") (Some "1.7")) mockWorld).1
     = Some [Some 2; Some 3].
Proof.
  intros [Ht Htake]%decimal_or_absent_parses
         [Hs Hskip]%decimal_or_absent_parses.
  assert (Hvalid : validate query = []).
  { unfold validate.
    by rewrite (proj2 (validate_property_nil _ _) Htake),
               (proj2 (validate_property_nil _ _) Hskip). }
  split; [exact Hvalid |]. split; [exact Ht |]. split; [exact Hs |].
  rewrite (getMails_accepted query w Hvalid).
  split; [| split; [| reflexivity]].
  - intros Hpos Hnonneg. by apply getMailPaginated_returns.
  - intros [Hle | Hneg].
    + apply (take_below_one_throws query w t); [| done].
      destruct (PaginationParamsDto.take query); [done |].
      simpl in Ht. lia.
    + apply (skip_negative_throws query w s); [| done].
      destruct (PaginationParamsDto.skip query); [done |].
      simpl in Hs. lia.
Qed.

Lemma decimal_parameters_are_truncated_witness :
  (decimal_or_absent (Some "2.5") 10 2 /\ decimal_or_absent (Some "1.7") 0 1)
  /\ validate (query_of (Some "2.5") (Some "1.7")) = []
  /\ getMails (query_of (Some "2.5") (Some "1.7")) mockWorld
     = (Returned (page mockWorld 2 1), mockWorld).
Proof.
  assert (Htake : decimal_or_absent (Some "2.5") 10 2).
  { exists NoSign, "2", "5". repeat split. }
  assert (Hskip : decimal_or_absent (Some "1.7") 0 1).
  { exists NoSign, "1", "7". repeat split. }
  assert (Hpos : 1 <= 2) by lia.
  assert (Hnonneg : 0 <= 1) by lia.
  destruct (decimal_parameters_are_truncated
              (query_of (Some "2.5") (Some "1.7")) mockWorld 2 1 Htake Hskip)
    as (Hvalid & _ & _ & Hpage & _).
  split; [by split |]. split; [exact Hvalid | exact (Hpage Hpos Hnonneg)].
Defined.

(** C8, as the claim has it, fails: "0.5" is a decimal numeric string, the
    validator accepts it, the service cuts it down to 0, and the request
    with take "0.5" is rejected. *)
Lemma decimal_take_below_one_is_rejected :
  "0.5" = decimalString NoSign "0" "5"
  /\ digits "0" /\ digits "5"
  /\ isNumberString "0.5" = true
  /\ parseInt "0.5" = Num 0
  /\ getMails (query_of (Some "0.5") None) mockWorld
     = (Thrown (BadRequestException (Single "Invalid take, skip")),
        with_log mockWorld
          (LogTemplate "Error parsing take, skip: "
             (Error (Template "Take must be a positive number (minimum 1): "
                              (OfNumber (Num 0)))))).
Proof. repeat split. Qed.

(** ** Frame and determinism *)

(** C9: a call, whether it returns or throws, leaves the mail store as it
    found it, and it is deterministic: calling again with the same
    parameters gives the same outcome, and the outcome depends on nothing
    but the parameters and the mail store. *)
Theorem source_untouched_and_outcome_repeatable
  (query : PaginationParamsDto.t) (w : World) :
  mails (getMailPaginated query w).2 = mails w
  /\ (getMailPaginated query (getMailPaginated query w).2).1
     = (getMailPaginated query w).1
  /\ mails (getMailPaginated query (getMailPaginated query w).2).2 = mails w
  /\ forall lines : list LogLine,
       (getMailPaginated query {| mails := mails w; logged := lines |}).1
       = (getMailPaginated query w).1.
Proof.
  assert (Hframe : forall v, mails (getMailPaginated query v).2 = mails v).
  { intros v. destruct (getMailPaginated_cases query v)
      as [(t & s & _ & _ & _ & _ & E) | (line & E)]; by rewrite E. }
  assert (Hsame : forall v v', mails v' = mails v ->
             (getMailPaginated query v').1 = (getMailPaginated query v).1).
  { intros v v' Hmails.
    destruct (getMailPaginated_cases query v)
      as [(t & s & Ht & Hs & Hpos & Hnonneg & E) | (line & E)]; rewrite E.
    - rewrite (getMailPaginated_returns query v' t s) by done.
      simpl. unfold page. by rewrite Hmails.
    - destruct (getMailPaginated_cases query v')
        as [(t & s & Ht & Hs & Hpos & Hnonneg & E') | (line' & E')];
        [| by rewrite E'].
      rewrite (getMailPaginated_returns query v t s) in E by done.
      discriminate. }
  split; [apply Hframe |]. split; [apply Hsame, Hframe |].
  split; [by rewrite !Hframe |].
  intros lines. by apply Hsame.
Qed.

(** ** The validator does not guard the parse *)

(** C10: there is a string, ".5", that the numeric-string check accepts
    and that [parseInt] turns into not-a-number; a request with it as take
    passes the validator and then fails in the service with the general
    "Invalid take, skip", not with the validator's message for the field. *)
Theorem accepted_string_that_does_not_parse :
  exists raw : string,
    raw = ".5"
    /\ isNumberString raw = true
    /\ parseInt raw = NaN
    /\ validate (query_of (Some raw) None) = []
    /\ forall w : World,
         getMails (query_of (Some raw) None) w
         = (Thrown (BadRequestException (Single "Invalid take, skip")),
            with_log w
       (LogTemplate "Error parsing take, skip: "
          (Error (Template "Invalid take parameter: " (OfString raw)))))
         /\ (getMails (query_of (Some raw) None) w).1
            <> Thrown (BadRequestException
                         (Many ["take must be a valid number"])).
Proof.
  exists ".5". do 4 (split; [reflexivity |]). intros w.
  rewrite getMails_accepted by reflexivity.
  rewrite (getMailPaginated_take_NaN _ w ".5") by reflexivity.
  split; [reflexivity | discriminate].
Qed.

(** ** More on the checked method *)

(** The error the first [try] block throws to its [catch] is always a plain
    [Error]; the line logged for it says so. *)
Lemma getMailPaginated_thrown_cause
  (query : PaginationParamsDto.t) (w w' : World) (e : Exception) :
  getMailPaginated query w = (Thrown e, w') ->
  e = invalidTakeSkip
  /\ exists message : Message,
       w' = with_log w (LogTemplate "Error parsing take, skip: "
                          (Error message)).
Proof.
  destruct query as [qt qs]. run_service.
  destruct qt as [rt |], qs as [rs |]; simpl;
    repeat match goal with
      | |- context [parseInt ?r] => destruct (parseInt r) as [| ?z]; simpl
      | |- context [(?a <=? ?b)] => destruct (a <=? b); simpl
      | |- context [(?a <? ?b)] => destruct (a <? b); simpl
      end;
    intros [= <- <-]; (split; [reflexivity | eexists; reflexivity]).
Qed.

(** What decides the outcome: each parameter is absent or parses into its
    range. *)
Lemma getMailPaginated_returns_iff (query : PaginationParamsDto.t) (w : World) :
  (exists r w', getMailPaginated query w = (Returned r, w'))
  <-> (exists t, parses_to (PaginationParamsDto.take query) 10 t /\ 1 <= t)
      /\ (exists s, parses_to (PaginationParamsDto.skip query) 0 s /\ 0 <= s).
Proof.
  split.
  - intros (r & w' & Hcall).
    destruct (getMailPaginated_cases query w)
      as [(t & s & Ht & Hs & Hpos & Hnonneg & _) | (line & E)].
    + split; [by exists t | by exists s].
    + rewrite E in Hcall. discriminate.
  - intros [(t & Ht & Hpos) (s & Hs & Hnonneg)].
    exists (page w t s), w. by apply getMailPaginated_returns.
Qed.

(** X1: the call returns exactly when take is absent or parses to an
    integer of at least 1 and skip is absent or parses to an integer of at
    least 0; in every other case it throws. *)
Theorem returns_exactly_when_parameters_pass
  (query : PaginationParamsDto.t) (w : World) :
  ((exists r w', getMailPaginated query w = (Returned r, w'))
   <-> (exists t, parses_to (PaginationParamsDto.take query) 10 t /\ 1 <= t)
       /\ (exists s, parses_to (PaginationParamsDto.skip query) 0 s
                     /\ 0 <= s))
  /\ ((exists e w', getMailPaginated query w = (Thrown e, w'))
      <-> ~ ((exists t, parses_to (PaginationParamsDto.take query) 10 t
                        /\ 1 <= t)
             /\ (exists s, parses_to (PaginationParamsDto.skip query) 0 s
                           /\ 0 <= s))).
Proof.
  split; [apply getMailPaginated_returns_iff |].
  rewrite <- (getMailPaginated_returns_iff query w). split.
  - intros (e & w' & Hthrown) (r & w'' & Hreturned). congruence.
  - intros Hnot. destruct (getMailPaginated query w) as [[r | e] w'] eqn:E.
    + destruct Hnot. eauto.
    + eauto.
Qed.

(** X2: the method never answers with a server error and never lets a
    plain error escape.  A call that returns writes nothing to the log; a
    call that throws throws the 400 "Invalid take, skip" and writes exactly
    one line, "Error parsing take, skip: " followed by a plain [Error]. *)
Theorem never_a_server_error (query : PaginationParamsDto.t) (w : World) :
  match getMailPaginated query w with
  | (Returned r, w') => w' = w
  | (Thrown e, w') =>
      e = BadRequestException (Single "Invalid take, skip")
      /\ exists message : Message,
           w' = {| mails := mails w;
                   logged := logged w
                             ++ [LogTemplate "Error parsing take, skip: "
                                   (Error message)] |}
  end.
Proof.
  destruct (getMailPaginated query w) as [[r | e] w'] eqn:E.
  - destruct (getMailPaginated_cases query w)
      as [(t & s & _ & _ & _ & _ & E') | (line & E')];
      rewrite E' in E; congruence.
  - by apply (getMailPaginated_thrown_cause query w w' e).
Qed.

(** X3: take is looked at first.  When take is present and does not parse,
    or parses to an integer below 1, the outcome and the logged line are
    the same whatever skip is. *)
Theorem rejected_take_hides_skip
  (take_arg skip1 skip2 : option string) (w : World) :
  parses_to_NaN take_arg \/ (exists v, provided take_arg v /\ v <= 0) ->
  getMailPaginated (query_of take_arg skip1) w
  = getMailPaginated (query_of take_arg skip2) w.
Proof.
  intros [Hnan | (v & Hp & Hv)]; destruct take_arg as [raw |]; try done;
    simpl in *.
  - by rewrite !(getMailPaginated_take_NaN _ w raw).
  - by rewrite !(getMailPaginated_take_range _ w raw v).
Qed.

Lemma rejected_take_hides_skip_witness :
  (parses_to_NaN (Some "abc") \/ (exists v, provided (Some "abc") v /\ v <= 0))
  /\ getMailPaginated (query_of (Some "abc") (Some "-1")) mockWorld
     = getMailPaginated (query_of (Some "abc") (Some "2")) mockWorld.
Proof.
  assert (H : parses_to_NaN (Some "abc")
              \/ (exists v, provided (Some "abc") v /\ v <= 0))
    by (left; reflexivity).
  split; [exact H |].
  exact (rejected_take_hides_skip (Some "abc") (Some "-1") (Some "2")
           mockWorld H).
Defined.

(** ** Pages next to each other *)

Lemma window_append {A : Type} (l : list A) (t1 t2 s : Z) :
  0 <= t1 -> 0 <= t2 -> 0 <= s ->
  slice l (Num s) (Num (s + t1))
  ++ slice l (Num (s + t1)) (Num (s + t1 + t2))
  = slice l (Num s) (Num (s + (t1 + t2))).
Proof.
  intros H1 H2 Hs. rewrite !slice_window by lia.
  rewrite !Z2Nat.inj_add by lia. rewrite <- drop_drop.
  apply take_take_drop.
Qed.

(** X4: a page and the page that starts where it ends make up the page of
    both: the mails of (take t1, skip s) followed by the mails of
    (take t2, skip s + t1) are the mails of (take t1 + t2, skip s). *)
Theorem adjacent_pages_compose
  (q1 q2 q12 : PaginationParamsDto.t) (w : World) (t1 t2 s : Z) :
  1 <= t1 -> 1 <= t2 -> 0 <= s ->
  parses_to (PaginationParamsDto.take q1) 10 t1 ->
  parses_to (PaginationParamsDto.skip q1) 0 s ->
  parses_to (PaginationParamsDto.take q2) 10 t2 ->
  parses_to (PaginationParamsDto.skip q2) 0 (s + t1) ->
  parses_to (PaginationParamsDto.take q12) 10 (t1 + t2) ->
  parses_to (PaginationParamsDto.skip q12) 0 s ->
  exists r1 r2 r12 : GetMailsPaginatedResponseDto.t,
    getMailPaginated q1 w = (Returned r1, w)
    /\ getMailPaginated q2 w = (Returned r2, w)
    /\ getMailPaginated q12 w = (Returned r12, w)
    /\ GetMailsPaginatedResponseDto.mails r1
       ++ GetMailsPaginatedResponseDto.mails r2
       = GetMailsPaginatedResponseDto.mails r12.
Proof.
  intros H1 H2 Hs Ht1 Hs1 Ht2 Hs2 Ht12 Hs12.
  exists (page w t1 s), (page w t2 (s + t1)), (page w (t1 + t2) s).
  split; [apply getMailPaginated_returns; by try lia |].
  split; [apply getMailPaginated_returns; by try lia |].
  split; [apply getMailPaginated_returns; by try lia |].
  simpl. apply window_append; lia.
Qed.

Lemma adjacent_pages_compose_witness :
  (1 <= 1 /\ 1 <= 2 /\ 0 <= 0)
  /\ exists r1 r2 r12 : GetMailsPaginatedResponseDto.t,
       getMailPaginated (query_of (Some "1") (Some "0")) mockWorld
       = (Returned r1, mockWorld)
       /\ getMailPaginated (query_of (Some "2") (Some "1")) mockWorld
          = (Returned r2, mockWorld)
       /\ getMailPaginated (query_of (Some "3") None) mockWorld
          = (Returned r12, mockWorld)
       /\ GetMailsPaginatedResponseDto.mails r1
          ++ GetMailsPaginatedResponseDto.mails r2
          = GetMailsPaginatedResponseDto.mails r12.
Proof.
  assert (H1 : 1 <= 1) by lia.
  assert (H2 : 1 <= 2) by lia.
  assert (Hs : 0 <= 0) by lia.
  split; [tauto |].
  apply (adjacent_pages_compose
           (query_of (Some "1") (Some "0")) (query_of (Some "2") (Some "1"))
           (query_of (Some "3") None) mockWorld 1 2 0 H1 H2 Hs);
    reflexivity.
Defined.

Lemma pages_up_to {A : Type} (l : list A) (t : Z) (n : nat) :
  1 <= t ->
  concat ((fun k : nat => slice l (Num (Z.of_nat k * t))
                            (Num (Z.of_nat k * t + t))) <$> seq 0 n)
  = take (n * Z.to_nat t) l.
Proof.
  intros Ht. induction n as [| n IH]; [done |].
  rewrite seq_S, fmap_app, concat_app, IH. simpl.
  rewrite app_nil_r, slice_window by lia.
  replace (Z.to_nat (Z.of_nat n * t)) with (n * Z.to_nat t)%nat by lia.
  rewrite take_take_drop. f_equal. lia.
Qed.

(** X5: walking the collection page by page loses nothing and repeats
    nothing.  With a page size t >= 1, the call for page k (skip = k * t)
    returns, and the first n pages one after the other are the first n * t
    mails of the source, in order; they are the whole source once n * t
    reaches its size. *)
Theorem walking_the_pages_covers_the_source (w : World) (t : Z) (n : nat) :
  1 <= t ->
  (forall (k : nat) (query : PaginationParamsDto.t),
      parses_to (PaginationParamsDto.take query) 10 t ->
      parses_to (PaginationParamsDto.skip query) 0 (Z.of_nat k * t) ->
      getMailPaginated query w = (Returned (page w t (Z.of_nat k * t)), w))
  /\ concat ((fun k : nat =>
                GetMailsPaginatedResponseDto.mails
                  (page w t (Z.of_nat k * t))) <$> seq 0 n)
     = take (n * Z.to_nat t) (mails w)
  /\ ((length (mails w) <= n * Z.to_nat t)%nat ->
      concat ((fun k : nat =>
                 GetMailsPaginatedResponseDto.mails
                   (page w t (Z.of_nat k * t))) <$> seq 0 n)
      = mails w).
Proof.
  intros Ht. split.
  { intros k query Htake Hskip. apply getMailPaginated_returns; by try lia. }
  assert (Hwalk := pages_up_to (mails w) t n Ht).
  split; [exact Hwalk |].
  intros Hall. unfold page. simpl. rewrite Hwalk. by apply take_ge.
Qed.

Lemma walking_the_pages_covers_the_source_witness :
  1 <= 2
  /\ concat ((fun k : nat =>
                GetMailsPaginatedResponseDto.mails
                  (page mockWorld 2 (Z.of_nat k * 2))) <$> seq 0 2)
     = mails mockWorld.
Proof.
  assert (Ht : 1 <= 2) by lia.
  split; [exact Ht |].
  destruct (walking_the_pages_covers_the_source mockWorld 2 2 Ht)
    as (_ & _ & Hall).
  apply Hall. vm_compute. lia.
Defined.

(** ** What the helpers of the end-to-end tests expect *)

Lemma remove_dups_length_le {A : Type} `{EqDecision A} (l : list A) :
  (length (remove_dups l) <= length l)%nat.
Proof.
  induction l as [| x l IH]; simpl; [done |].
  destruct (decide_rel elem_of x l); simpl; lia.
Qed.

(** The helper passes exactly on lists of mails with pairwise different
    ids. *)
Lemma expectUniqueMailIds_NoDup (l : list IMail) :
  expectUniqueMailIds l = true <-> NoDup (map id l).
Proof.
  unfold expectUniqueMailIds. rewrite bool_decide_eq_true.
  generalize (map id l). clear l. intros ids.
  induction ids as [| x ids IH]; simpl.
  - split; [constructor | done].
  - pose proof (remove_dups_length_le ids) as Hle.
    destruct (decide_rel elem_of x ids) as [Hin | Hout]; simpl.
    + split; [lia |]. intros Hnodup. apply NoDup_cons in Hnodup as [? _].
      done.
    + rewrite NoDup_cons. split.
      * intros [= Hlen]. split; [done | by apply IH].
      * intros [_ Hnodup]. f_equal. by apply IH.
Qed.

Lemma getMails_returned (query : PaginationParamsDto.t) (w w' : World)
  (r : GetMailsPaginatedResponseDto.t) :
  getMails query w = (Returned r, w') ->
  getMailPaginated query w = (Returned r, w').
Proof.
  intros Hcall. destruct (validate query) as [| m ms] eqn:Hvalid.
  - by rewrite <- (getMails_accepted query w Hvalid).
  - rewrite getMails_rejected in Hcall by (by rewrite Hvalid). discriminate.
Qed.

Lemma returned_is_page (query : PaginationParamsDto.t) (w w' : World)
  (r : GetMailsPaginatedResponseDto.t) :
  getMailPaginated query w = (Returned r, w') ->
  exists t s, parses_to (PaginationParamsDto.take query) 10 t
              /\ parses_to (PaginationParamsDto.skip query) 0 s
              /\ 1 <= t /\ 0 <= s /\ r = page w t s.
Proof.
  intros Hcall.
  destruct (getMailPaginated_cases query w)
    as [(t & s & Ht & Hs & Hpos & Hnonneg & E) | (line & E)];
    rewrite E in Hcall; [| discriminate].
  exists t, s. repeat split; try done. congruence.
Qed.

(** X6: pagination keeps ids unique.  Over a source whose mails have
    pairwise different ids, the mails of every page the method returns pass
    [expectUniqueMailIds]. *)
Theorem pages_keep_ids_unique (query : PaginationParamsDto.t) (w w' : World)
  (r : GetMailsPaginatedResponseDto.t) :
  NoDup (map id (mails w)) ->
  getMailPaginated query w = (Returned r, w') ->
  expectUniqueMailIds (GetMailsPaginatedResponseDto.mails r) = true.
Proof.
  intros Hnodup Hcall.
  destruct (returned_is_page query w w' r Hcall)
    as (t & s & _ & _ & Hpos & Hnonneg & ->).
  apply expectUniqueMailIds_NoDup. simpl. rewrite slice_window by lia.
  rewrite <- firstn_map, <- skipn_map.
  apply (sublist_NoDup _ (map id (mails w))); [done |].
  etrans; [apply sublist_take | apply sublist_drop].
Qed.

Lemma pages_keep_ids_unique_witness :
  NoDup (map id (mails mockWorld))
  /\ getMailPaginated (query_of (Some "2") (Some "1")) mockWorld
     = (Returned (page mockWorld 2 1), mockWorld)
  /\ expectUniqueMailIds
       (GetMailsPaginatedResponseDto.mails (page mockWorld 2 1)) = true.
Proof.
  assert (Hnodup : NoDup (map id (mails mockWorld))).
  { apply expectUniqueMailIds_NoDup. reflexivity. }
  assert (Hcall : getMailPaginated (query_of (Some "2") (Some "1")) mockWorld
                  = (Returned (page mockWorld 2 1), mockWorld))
    by reflexivity.
  split; [exact Hnodup |]. split; [exact Hcall |].
  exact (pages_keep_ids_unique _ mockWorld mockWorld _ Hnodup Hcall).
Defined.

(** X7: every 200 answer of the route passes [expectRespectsTakeLimit]
    with the limit the tests use, [parseInt(take, 10)] or 10 when the
    request has no take: it holds no more mails than the limit and no more
    than totalCount. *)
Theorem responses_respect_take_limit
  (query : PaginationParamsDto.t) (w w' : World)
  (r : GetMailsPaginatedResponseDto.t) :
  getMails query w = (Returned r, w') ->
  expectRespectsTakeLimit r (expectedTakeLimit query) = true.
Proof.
  intros Hcall%getMails_returned.
  destruct (returned_is_page query w w' r Hcall)
    as (t & s & Ht & _ & Hpos & Hnonneg & ->).
  assert (Hlimit : expectedTakeLimit query = Num t).
  { unfold expectedTakeLimit.
    destruct (PaginationParamsDto.take query); simpl in Ht; congruence. }
  unfold expectRespectsTakeLimit. rewrite Hlimit. simpl.
  rewrite slice_window_length by lia.
  apply andb_true_intro. split; apply Z.leb_le; lia.
Qed.

Lemma responses_respect_take_limit_witness :
  getMails (query_of (Some "5.5") None) mockWorld
  = (Returned (page mockWorld 5 0), mockWorld)
  /\ expectRespectsTakeLimit (page mockWorld 5 0) (Num 5) = true.
Proof.
  assert (Hcall : getMails (query_of (Some "5.5") None) mockWorld
                  = (Returned (page mockWorld 5 0), mockWorld))
    by reflexivity.
  split; [exact Hcall |].
  exact (responses_respect_take_limit _ mockWorld mockWorld _ Hcall).
Defined.

(** ** The route *)

Lemma validate_nil_iff (query : PaginationParamsDto.t) :
  validate query = []
  <-> ~ (fails_numeric_check (PaginationParamsDto.take query)
         \/ fails_numeric_check (PaginationParamsDto.skip query)).
Proof.
  unfold validate. rewrite app_nil, !validate_property_nil. tauto.
Qed.

Lemma validate_cons_iff (query : PaginationParamsDto.t) :
  validate query <> []
  <-> fails_numeric_check (PaginationParamsDto.take query)
      \/ fails_numeric_check (PaginationParamsDto.skip query).
Proof.
  unfold validate, validate_property, fails_numeric_check.
  destruct (PaginationParamsDto.take query) as [rt |],
           (PaginationParamsDto.skip query) as [rs |];
    try destruct (isNumberString rt); try destruct (isNumberString rs);
    simpl; split; try done; try tauto; intros [? | ?]; done.
Qed.

(** X8: the route answers with the list of validator messages exactly when
    a provided parameter is not a numeric string; the service is then not
    reached, nothing is logged, and the list holds one message per
    offending field, take before skip.  Every other request is answered by
    the service. *)
Theorem validator_rejection_leaves_no_trace
  (query : PaginationParamsDto.t) (w : World) :
  ((exists messages w',
       getMails query w = (Thrown (BadRequestException (Many messages)), w'))
   <-> fails_numeric_check (PaginationParamsDto.take query)
       \/ fails_numeric_check (PaginationParamsDto.skip query))
  /\ (forall messages w',
        getMails query w = (Thrown (BadRequestException (Many messages)), w')
        -> w' = w
           /\ (fails_numeric_check (PaginationParamsDto.take query) ->
               fails_numeric_check (PaginationParamsDto.skip query) ->
               messages = ["take must be a valid number";
                           "skip must be a valid number"])
           /\ (fails_numeric_check (PaginationParamsDto.take query) ->
               ~ fails_numeric_check (PaginationParamsDto.skip query) ->
               messages = ["take must be a valid number"])
           /\ (~ fails_numeric_check (PaginationParamsDto.take query) ->
               fails_numeric_check (PaginationParamsDto.skip query) ->
               messages = ["skip must be a valid number"]))
  /\ (~ (fails_numeric_check (PaginationParamsDto.take query)
         \/ fails_numeric_check (PaginationParamsDto.skip query)) ->
      getMails query w = getMailPaginated query w).
Proof.
  assert (Hmany : forall messages w',
             getMails query w
             = (Thrown (BadRequestException (Many messages)), w') ->
             validate query <> [] /\ w' = w /\ messages = validate query).
  { intros messages w' Hcall.
    destruct (validate query) as [| m ms] eqn:Hvalid.
    - rewrite (getMails_accepted query w Hvalid) in Hcall.
      destruct (getMailPaginated_thrown_cause query w w' _ Hcall) as [? _].
      discriminate.
    - rewrite getMails_rejected in Hcall by (by rewrite Hvalid).
      rewrite Hvalid in Hcall. split; [done |]. split; congruence. }
  split; [| split].
  - rewrite <- (validate_cons_iff query). split.
    + intros (messages & w' & Hcall).
      by destruct (Hmany messages w' Hcall) as (Hne & _).
    + intros Hne. exists (validate query), w. by apply getMails_rejected.
  - intros messages w' Hcall.
    destruct (Hmany messages w' Hcall) as (_ & -> & ->).
    split; [done |]. unfold validate.
    split; [| split]; intros Htake Hskip.
    + by rewrite !validate_property_cons.
    + rewrite validate_property_cons by done.
      by rewrite (proj2 (validate_property_nil _ _) Hskip).
    + rewrite (proj2 (validate_property_nil _ _) Htake).
      by rewrite validate_property_cons.
  - intros Hnot. apply getMails_accepted. by apply validate_nil_iff.
Qed.

Lemma validator_rejection_leaves_no_trace_witness :
  getMails (query_of (Some "invalid") (Some "1e3")) mockWorld
  = (Thrown (BadRequestException
               (Many ["take must be a valid number";
                      "skip must be a valid number"])), mockWorld)
  /\ fails_numeric_check (Some "invalid") /\ fails_numeric_check (Some "1e3").
Proof.
  assert (Htake : fails_numeric_check (Some "invalid")) by reflexivity.
  assert (Hskip : fails_numeric_check (Some "1e3")) by reflexivity.
  split; [| by split].
  destruct (validator_rejection_leaves_no_trace
              (query_of (Some "invalid") (Some "1e3")) mockWorld)
    as ([_ Hrejected] & Hmessages & _).
  destruct Hrejected as (messages & w' & Hcall); [by left |].
  destruct (Hmessages messages w' Hcall) as (-> & Hboth & _).
  rewrite Hcall. by rewrite (Hboth Htake Hskip).
Defined.

(** ** Which accepted strings do not parse *)

Section Accepted.
Implicit Types (c : ascii) (raw rest u fraction : string) (sg : Sign).

(** A string is its optional sign followed by the rest. *)
Lemma splitSign_sign raw :
  exists sg, raw = sign_string sg +:+ (splitSign raw).2
             /\ (splitSign raw).1 = sign_factor sg.
Proof.
  destruct raw as [| c rest]; [by exists NoSign |].
  destruct c as [[] [] [] [] [] [] [] []];
    first [ by exists NoSign | by exists Plus | by exists Minus ].
Qed.

(** No numeric string starts with white space. *)
Lemma accepted_needs_no_trim raw :
  isNumberString raw = true -> trimStart raw = raw.
Proof.
  destruct raw as [| c rest]; [done |].
  destruct c as [[] [] [] [] [] [] [] []]; try reflexivity;
    intros H; vm_compute in H; discriminate H.
Qed.

Lemma leadingDigits_nil_iff u :
  leadingDigits u = [] <-> dropDigits u = u.
Proof.
  destruct u as [| c rest]; [done |]. simpl. unfold isDigit.
  destruct (digitValue c) as [d |] eqn:E; [| done].
  split; [done |]. intros Hdrop. exfalso.
  assert (Hlen : forall s, (String.length (dropDigits s) <= String.length s)%nat).
  { induction s as [| c' s IH]; simpl; [lia |].
    destruct (isDigit c'); simpl; lia. }
  specialize (Hlen rest). rewrite Hdrop in Hlen. simpl in Hlen. lia.
Qed.

(** After the sign an accepted string is digits only, or digits, a point
    and digits; it parses to not-a-number exactly when the point comes
    first. *)
Lemma accepted_NaN_iff raw :
  isNumberString raw = true ->
  parseInt raw = NaN
  <-> exists fraction, digits fraction
                       /\ (splitSign raw).2 = String "." fraction.
Proof.
  intros Hok. unfold parseInt. rewrite (accepted_needs_no_trim raw Hok).
  unfold isNumberString, isNumeric in Hok. simpl in Hok.
  destruct (splitSign raw) as [sign u]. simpl in *.
  transitivity (dropDigits u = u).
  { rewrite <- leadingDigits_nil_iff. by destruct (leadingDigits u). }
  destruct (dropDigits u) as [| c fraction] eqn:Hdrop.
  - split.
    + intros <-. done.
    + intros (fraction & _ & ->). simpl in Hdrop. discriminate.
  - destruct (ascii_dec c ".") as [-> | Hc].
    + apply andb_prop in Hok as [Hne Hall]. split.
      * intros <-. by exists fraction.
      * intros (fraction' & _ & ->). by simpl in Hdrop.
    + exfalso. revert Hok.
      destruct c as [[] [] [] [] [] [] [] []]; try done.
Qed.
End Accepted.

(** X9: the strings that get past the validator and still do not parse
    are exactly those whose first character after the optional sign is the
    point: for an accepted string, [parseInt] yields not-a-number if and
    only if the string is a sign or nothing, a point, and digits. *)
Theorem accepted_string_parses_unless_point_first (raw : string) :
  isNumberString raw = true ->
  parseInt raw = NaN
  <-> exists (sg : Sign) (fraction : string),
        digits fraction /\ raw = sign_string sg +:+ "." +:+ fraction.
Proof.
  intros Hok. rewrite (accepted_NaN_iff raw Hok). split.
  - intros (fraction & Hfraction & Hrest).
    destruct (splitSign_sign raw) as (sg & Hraw & _).
    exists sg, fraction. split; [done |]. by rewrite Hrest in Hraw.
  - intros (sg & fraction & Hfraction & ->).
    exists fraction. split; [done |]. by destruct sg.
Qed.

Lemma accepted_string_parses_unless_point_first_witness :
  isNumberString "-.25" = true
  /\ (parseInt "-.25" = NaN
      <-> exists (sg : Sign) (fraction : string),
            digits fraction /\ "-.25" = sign_string sg +:+ "." +:+ fraction).
Proof.
  assert (Hok : isNumberString "-.25" = true) by reflexivity.
  split; [exact Hok |].
  exact (accepted_string_parses_unless_point_first "-.25" Hok).
Defined.

(** ** Integers written out are read back *)

Section WrittenOut.
Lemma written_allDigits (d : Decimal.uint) :
  allDigits (DecimalString.NilEmpty.string_of_uint d) = true.
Proof. induction d; simpl; by rewrite ?IHd. Qed.








End WrittenOut.



(** ** The listing without the checks *)

(** The listing without the checks runs straight through: it hands the
    two parsed values to [slice] and returns. *)
Lemma unchecked_run (query : PaginationParamsDto.t) (w : World) :
  Unchecked.getMailPaginated query w
  = (Returned
       {| GetMailsPaginatedResponseDto.mails :=
            slice (mails w)
              (Unchecked.parseInt_arg (PaginationParamsDto.skip query))
              (num_add
                 (Unchecked.parseInt_arg (PaginationParamsDto.skip query))
                 (Unchecked.parseInt_arg (PaginationParamsDto.take query)));
          GetMailsPaginatedResponseDto.totalCount :=
            Z.of_nat (length (mails w)) |},
     w).
Proof. reflexivity. Qed.

Lemma relativeIndex_bounds (len : Z) (n : number) :
  0 <= len -> 0 <= relativeIndex len n <= len.
Proof.
  intros Hlen. unfold relativeIndex.
  destruct (ToIntegerOrInfinity n <? 0) eqn:E.
  - apply Z.ltb_lt in E. lia.
  - apply Z.ltb_ge in E. lia.
Qed.

Lemma slice_sublist {A : Type} (l : list A) (a b : number) :
  slice l a b `sublist_of` l.
Proof. unfold slice. etrans; [apply sublist_take | apply sublist_drop]. Qed.

(** [slice] with an end that is not behind its start is empty. *)
Lemma slice_empty {A : Type} (l : list A) (a b : number) :
  relativeIndex (Z.of_nat (length l)) b
  <= relativeIndex (Z.of_nat (length l)) a ->
  slice l a b = [].
Proof.
  intros Hle. unfold slice.
  replace (Z.to_nat _) with 0%nat at 1 by lia. apply take_0.
Qed.

(** X11: the listing without the checks never throws and never logs,
    whatever the parameters are: it returns a response whose totalCount is
    the size of the source and whose mails are mails of the source in
    source order. *)
Theorem unchecked_never_throws (query : PaginationParamsDto.t) (w : World) :
  exists r : GetMailsPaginatedResponseDto.t,
    Unchecked.getMailPaginated query w = (Returned r, w)
    /\ GetMailsPaginatedResponseDto.totalCount r = Z.of_nat (length (mails w))
    /\ GetMailsPaginatedResponseDto.mails r `sublist_of` mails w.
Proof.
  eexists. split; [apply unchecked_run |]. simpl.
  split; [reflexivity | apply slice_sublist].
Qed.

(** X12: when both parameters are present and parse to take >= 1 and
    skip >= 0, the listing without the checks and the checked method give
    the same outcome and leave the same world. *)
Theorem unchecked_agrees_on_passing_parameters
  (query : PaginationParamsDto.t) (w : World) (t s : Z) :
  provided (PaginationParamsDto.take query) t ->
  provided (PaginationParamsDto.skip query) s ->
  1 <= t -> 0 <= s ->
  Unchecked.getMailPaginated query w = getMailPaginated query w.
Proof.
  intros Ht Hs Hpos Hnonneg.
  destruct query as [[rt |] [rs |]]; try done. simpl in Ht, Hs.
  rewrite (getMailPaginated_returns _ w t s) by done.
  rewrite unchecked_run. simpl. by rewrite Ht, Hs.
Qed.

Lemma unchecked_agrees_on_passing_parameters_witness :
  (provided (Some "2") 2 /\ provided (Some "1") 1 /\ 1 <= 2 /\ 0 <= 1)
  /\ Unchecked.getMailPaginated (query_of (Some "2") (Some "1")) mockWorld
     = getMailPaginated (query_of (Some "2") (Some "1")) mockWorld.
Proof.
  assert (Ht : provided (Some "2") 2) by reflexivity.
  assert (Hs : provided (Some "1") 1) by reflexivity.
  assert (Hpos : 1 <= 2) by lia.
  assert (Hnonneg : 0 <= 1) by lia.
  split; [tauto |].
  exact (unchecked_agrees_on_passing_parameters
           (query_of (Some "2") (Some "1")) mockWorld 2 1
           Ht Hs Hpos Hnonneg).
Defined.

(** X13: in the listing without the checks the defaults 10 and 0 are never
    used.  When a parameter is absent or does not parse, or take parses to
    0, the call returns an empty page and the size of the source. *)
Theorem unchecked_empty_page (query : PaginationParamsDto.t) (w : World) :
  PaginationParamsDto.take query = None
  \/ PaginationParamsDto.skip query = None
  \/ parses_to_NaN (PaginationParamsDto.take query)
  \/ parses_to_NaN (PaginationParamsDto.skip query)
  \/ provided (PaginationParamsDto.take query) 0 ->
  Unchecked.getMailPaginated query w
  = (Returned
       {| GetMailsPaginatedResponseDto.mails := [];
          GetMailsPaginatedResponseDto.totalCount :=
            Z.of_nat (length (mails w)) |},
     w).
Proof.
  intros Hcase. rewrite unchecked_run. do 3 f_equal.
  set (len := Z.of_nat (length (mails w))).
  assert (Hlen : 0 <= len) by lia.
  assert (Hnan : forall a, slice (mails w) a NaN = []).
  { intros a. apply slice_empty. fold len.
    pose proof (relativeIndex_bounds len a Hlen).
    unfold relativeIndex at 1. simpl. lia. }
  assert (Htake : Unchecked.parseInt_arg (PaginationParamsDto.take query) = NaN
                  \/ Unchecked.parseInt_arg (PaginationParamsDto.skip query)
                     = NaN
                  \/ Unchecked.parseInt_arg (PaginationParamsDto.take query)
                     = Num 0).
  { destruct query as [[rt |] [rs |]]; simpl in *;
      intuition (try discriminate; auto). }
  destruct Htake as [-> | [-> | ->]].
  - destruct (Unchecked.parseInt_arg _); apply Hnan.
  - apply Hnan.
  - destruct (Unchecked.parseInt_arg _) as [| s]; [apply Hnan |].
    simpl. apply slice_empty. by rewrite Z.add_0_r.
Qed.

Lemma unchecked_empty_page_witness :
  (PaginationParamsDto.take (query_of None None) = None
   \/ PaginationParamsDto.skip (query_of None None) = None
   \/ parses_to_NaN (PaginationParamsDto.take (query_of None None))
   \/ parses_to_NaN (PaginationParamsDto.skip (query_of None None))
   \/ provided (PaginationParamsDto.take (query_of None None)) 0)
  /\ Unchecked.getMailPaginated (query_of None None) mockWorld
     = (Returned
          {| GetMailsPaginatedResponseDto.mails := [];
             GetMailsPaginatedResponseDto.totalCount := 3 |},
        mockWorld).
Proof.
  assert (H : PaginationParamsDto.take (query_of None None) = None
              \/ PaginationParamsDto.skip (query_of None None) = None
              \/ parses_to_NaN (PaginationParamsDto.take (query_of None None))
              \/ parses_to_NaN (PaginationParamsDto.skip (query_of None None))
              \/ provided (PaginationParamsDto.take (query_of None None)) 0)
    by (left; reflexivity).
  split; [exact H |].
  exact (unchecked_empty_page (query_of None None) mockWorld H).
Defined.

(** X14: in the listing without the checks a negative take counts the end
    from the back.  With skip >= 0 and skip + take < 0 the page holds the
    mails from index skip up to index size + skip + take of the source, so
    a negative take can return mails. *)
Theorem unchecked_negative_end
  (query : PaginationParamsDto.t) (w : World) (t s : Z) :
  provided (PaginationParamsDto.take query) t ->
  provided (PaginationParamsDto.skip query) s ->
  0 <= s -> s + t < 0 ->
  Unchecked.getMailPaginated query w
  = (Returned
       {| GetMailsPaginatedResponseDto.mails :=
            drop (Z.to_nat s)
              (take (Z.to_nat (Z.of_nat (length (mails w)) + s + t))
                 (mails w));
          GetMailsPaginatedResponseDto.totalCount :=
            Z.of_nat (length (mails w)) |},
     w).
Proof.
  intros Ht Hs Hnonneg Hneg.
  destruct query as [[rt |] [rs |]]; try done. simpl in Ht, Hs.
  rewrite unchecked_run. simpl. rewrite Ht, Hs. simpl. do 3 f_equal.
  unfold slice, relativeIndex. simpl.
  set (len := Z.of_nat (length (mails w))).
  destruct (Z.ltb_spec s 0) as [? | _]; [lia |].
  destruct (Z.ltb_spec (s + t) 0) as [_ | ?]; [| lia].
  destruct (Z.le_gt_cases len s) as [Hout | Hin].
  - rewrite (drop_ge (mails w)) by lia.
    rewrite (drop_ge (take _ _)); [by rewrite take_nil |].
    rewrite length_take. lia.
  - rewrite Z.min_l by lia.
    destruct (Z.le_gt_cases 0 (len + t)) as [Hsome | Hnone].
    + replace (Z.to_nat (len + s + t))
        with (Z.to_nat s + Z.to_nat (len + t))%nat by lia.
      rewrite <- take_drop_commute. f_equal. lia.
    + rewrite (drop_ge (take _ _)) by (rewrite length_take; lia).
      replace (Z.to_nat _) with 0%nat at 1 by lia. apply take_0.
Qed.

Lemma unchecked_negative_end_witness :
  (provided (Some "-2") (-2) /\ provided (Some "1") 1
   /\ 0 <= 1 /\ 1 + -2 < 0)
  /\ returned_ids
       (Unchecked.getMailPaginated (query_of (Some "-2") (Some "1"))
          mockWorld).1
     = Some [Some 2].
Proof.
  assert (Ht : provided (Some "-2") (-2)) by reflexivity.
  assert (Hs : provided (Some "1") 1) by reflexivity.
  assert (Hnonneg : 0 <= 1) by lia.
  assert (Hneg : 1 + -2 < 0) by lia.
  split; [tauto |].
  rewrite (unchecked_negative_end (query_of (Some "-2") (Some "1"))
             mockWorld (-2) 1 Ht Hs Hnonneg Hneg).
  reflexivity.
Defined.

(** ** The fixture that makes mails *)

Section CreateMails.
Variable Date_now : nat -> Z.
Variable toISOString : Z -> string.
Variable baseId : Z.




End CreateMails.





